(** * Fitness Tracker API: a shallow embedding of [main.py]

    The development follows the source file top to bottom: the request
    models with their field constraints, the document store the handlers
    talk to, the Python built-ins the handlers rely on, and then one
    definition per route handler.  The theorems at the end are about these
    definitions.

    Conventions.
    - A calendar date is its proleptic Gregorian ordinal ([date.toordinal()]),
      so [d - timedelta(days=n)] is [d - n] on [Z]; the calendar is taken
      without its two ends.  [str(d)] is the ISO rendering of a date, which
      is injective; dictionaries and sets keyed by [str(date)] are keyed by
      the date itself.
    - A Python [int] is a [Z].  A Python [float] is idealised as an exact
      rational ([Qc]): sums, quotients and comparisons are the exact ones.
    - A [datetime] creation stamp is a [Z] (ticks of the store clock).
    - Exceptions are values of [exn]; a handler is a computation in the
      state-and-exception monad [M] over the process-wide database handle. *)

From Stdlib Require Import ZArith QArith Qcanon Qround Lqa String Ascii List.
From stdpp Require Import base option sorting gmap sets strings numbers list.

Local Open Scope string_scope.
Local Open Scope Z_scope.

(** ** Exceptions and the handler monad *)

Inductive exn : Type :=
| RequestValidationError (loc : list string)      (* 422, raised before the handler runs *)
| HTTPException (status_code : Z) (detail : string)
| DatabaseNotAvailable                              (* the store cannot be reached *)
| ZeroDivisionError
| ValueError                                        (* [max()] of an empty sequence *)
| TypeError                                         (* [float(None)] *)
| LoopDidNotFinish.                                 (* a [while] loop outran its budget *)

Definition result (A : Type) : Type := exn + A.

Definition Ok {A} (a : A) : result A := inr a.
Definition Raise {A} (e : exn) : result A := inl e.

Definition rbind {A B} (r : result A) (k : A → result B) : result B :=
  match r with
  | inl e => inl e
  | inr a => k a
  end.

Module Database.

(** Stored documents.  A document is a [Dict[str, Any]]: the fields the
    handlers read with [.get] and a fallback are optional here. *)

Record ProfileDoc : Type := {
  p_id : N;
  p_name : string;
  p_email : string;
  p_height_cm : option Qc;
  p_goal : option string;
  p_created_at : Z;
}.

Record WorkoutDoc : Type := {
  w_id : N;
  w_user_email : string;
  w_date : Z;
  w_type : option string;
  w_duration_min : option Qc;
  w_intensity : option string;
  w_notes : option string;
  w_calories : option Qc;
  w_exercises : option (list string);
  w_created_at : Z;
}.

Record BodyCompDoc : Type := {
  b_id : N;
  b_user_email : string;
  b_date : Z;
  b_weight_kg : option Qc;
  b_body_fat_pct : option Qc;
  b_waist_cm : option Qc;
  b_hips_cm : option Qc;
  b_chest_cm : option Qc;
  b_created_at : Z;
}.

(** Modelled from the spec: the module [database] ([db], [create_document],
    [get_documents]) is imported by [main.py] but is not part of the
    sources.  The spec describes it as a document store with insert-one and
    filtered-find with a limit, no schema enforcement, a creation stamp
    assigned at insert time, and a failure when the store cannot be
    reached.  Collections keep their documents in insertion order. *)
Record collections : Type := {
  userprofile : list ProfileDoc;
  workout : list WorkoutDoc;
  bodycomposition : list BodyCompDoc;
  clock : Z;
  next_id : N;
}.

(** The process-wide handle [db]; [None] when the store is not available. *)
Definition handle : Type := option collections.

End Database.
Export Database.

Definition M (A : Type) : Type := handle → result A * handle.

Definition ret {A} (a : A) : M A := λ db, (Ok a, db).
Definition raise {A} (e : exn) : M A := λ db, (Raise e, db).
Definition bind {A B} (m : M A) (k : A → M B) : M B :=
  λ db, match m db with
        | (inl e, db') => (inl e, db')
        | (inr a, db') => k a db'
        end.
Definition lift {A} (r : result A) : M A := λ db, (r, db).

Notation "'let*' x ':=' m 'in' k" := (bind m (λ x, k))
  (at level 10, x name, m at level 100, k at level 200, only parsing).

(** Modelled from the spec: [get_documents(collection, filter, limit)], the
    filtered find.  It returns the documents of the collection that match the
    filter, in insertion order, at most [limit] of them; no limit means all
    of them.  It fails when the store cannot be reached. *)
Definition apply_limit {A} (limit : option Z) (docs : list A) : list A :=
  match limit with
  | None => docs
  | Some n => take (Z.to_nat n) docs
  end.

Definition get_documents {A} (collection : collections → list A)
    (filter_dict : A → bool) (limit : option Z) : M (list A) :=
  λ db, match db with
        | None => (Raise DatabaseNotAvailable, db)
        | Some c => (Ok (apply_limit limit (List.filter filter_dict (collection c))), db)
        end.

(** Modelled from the spec: [create_document(collection, data)], the
    insert-one.  It stamps the document with the store clock, appends it to
    its collection and returns the identifier the store assigned.  It fails
    when the store cannot be reached. *)
Definition create_document {D} (to_doc : N → Z → D)
    (put : D → collections → collections) : M N :=
  λ db, match db with
        | None => (Raise DatabaseNotAvailable, db)
        | Some c =>
            let c' := put (to_doc (next_id c) (clock c)) c in
            (Ok (next_id c),
             Some {| userprofile := userprofile c'; workout := workout c';
                     bodycomposition := bodycomposition c';
                     clock := clock c + 1; next_id := N.succ (next_id c) |})
        end.

(** ** Models: the request bodies and their [Field] constraints *)

Definition gt (bound x : Qc) : bool := bool_decide (bound < x)%Qc.
Definition ge (bound x : Qc) : bool := bool_decide (bound ≤ x)%Qc.
Definition le (bound x : Qc) : bool := bool_decide (x ≤ bound)%Qc.

(** One constrained field: the location it reports when a constraint fails. *)
Definition Field (loc : string) (constraints : list (Qc → bool)) (x : Qc) : list string :=
  if forallb (λ c, c x) constraints then [] else [loc].

(** An [Optional] constrained field: [None] passes. *)
Definition OptionalField (loc : string) (constraints : list (Qc → bool))
    (x : option Qc) : list string :=
  match x with
  | None => []
  | Some v => Field loc constraints v
  end.

Definition validated {A} (errors : list string) (a : A) : result A :=
  match errors with
  | [] => Ok a
  | _ :: _ => Raise (RequestValidationError errors)
  end.

Module ProfileIn.
Record t : Type := {
  name : string;
  email : string;
  height_cm : option Qc;
  goal : option string;
}.
Definition errors (p : t) : list string :=
  OptionalField "height_cm" [gt 0%Qc] (height_cm p).
Definition validate (p : t) : result t := validated (errors p) p.
End ProfileIn.

Module WorkoutIn.
Record t : Type := {
  user_email : string;
  date : Z;
  type : string;
  duration_min : Qc;
  intensity : option string;
  notes : option string;
  calories : option Qc;
  exercises : option (list string);
}.
Definition errors (w : t) : list string :=
  Field "duration_min" [gt 0%Qc] (duration_min w)
  ++ OptionalField "calories" [ge 0%Qc] (calories w).
Definition validate (w : t) : result t := validated (errors w) w.
End WorkoutIn.

Module BodyCompIn.
Record t : Type := {
  user_email : string;
  date : Z;
  weight_kg : option Qc;
  body_fat_pct : option Qc;
  waist_cm : option Qc;
  hips_cm : option Qc;
  chest_cm : option Qc;
}.
Definition errors (m : t) : list string :=
  OptionalField "weight_kg" [gt 0%Qc] (weight_kg m)
  ++ OptionalField "body_fat_pct" [ge 0%Qc; le (Qc_of_Z 100)] (body_fat_pct m)
  ++ OptionalField "waist_cm" [gt 0%Qc] (waist_cm m)
  ++ OptionalField "hips_cm" [gt 0%Qc] (hips_cm m)
  ++ OptionalField "chest_cm" [gt 0%Qc] (chest_cm m).
Definition validate (m : t) : result t := validated (errors m) m.
End BodyCompIn.

(** An integer query parameter [Query(default, ge=lo, le=hi)]: an omitted
    parameter takes the default, a supplied one must lie in the range. *)
Definition Query (loc : string) (default lo hi : Z) (raw : option Z) : result Z :=
  match raw with
  | None => Ok default
  | Some v => if bool_decide (lo ≤ v ≤ hi) then Ok v
              else Raise (RequestValidationError [loc])
  end.

(** ** The Python built-ins the handlers use *)

Notation "'let+' x ':=' r 'in' k" := (rbind r (λ x, k))
  (at level 10, x name, r at level 100, k at level 200, only parsing).

(** [x or y] on numbers: [None] and zero are falsy. *)
Definition py_or (x : option Qc) (y : Qc) : Qc :=
  match x with
  | None => y
  | Some v => if bool_decide (v = 0%Qc) then y else v
  end.

(** [s or y] on strings: [None] and the empty string are falsy. *)
Definition py_or_str (x : option string) (y : string) : string :=
  match x with
  | None => y
  | Some "" => y
  | Some s => s
  end.

(** [n or m] on integers. *)
Definition py_or_int (n m : Z) : Z := if bool_decide (n = 0) then m else n.

(** [float(x)]: [float(None)] raises. *)
Definition py_float (x : option Qc) : result Qc :=
  match x with
  | None => Raise TypeError
  | Some v => Ok v
  end.

(** [sum(xs)], left to right from [0]. *)
Definition py_sum (xs : list Qc) : Qc := fold_left Qcplus xs 0%Qc.

(** [max(xs)]: raises on an empty sequence. *)
Definition py_max (xs : list Z) : result Z :=
  match xs with
  | [] => Raise ValueError
  | x :: xs' => Ok (fold_left Z.max xs' x)
  end.

(** [a / b] on integers (true division): raises when [b] is zero. *)
Definition py_truediv (a b : Z) : result Qc :=
  if bool_decide (b = 0) then Raise ZeroDivisionError
  else Ok (Qc_of_Z a / Qc_of_Z b)%Qc.

(** [round(x, 1)]: the nearest multiple of one tenth, ties to the even one. *)
Definition round_half_even (q : Qc) : Z :=
  let f := Qfloor q in
  match (q - Qc_of_Z f ?= Q2Qc (1 # 2))%Qc with
  | Lt => f
  | Gt => f + 1
  | Eq => if Z.even f then f else f + 1
  end.

Definition py_round1 (x : Qc) : Qc :=
  (Qc_of_Z (round_half_even (x * Qc_of_Z 10)) / Qc_of_Z 10)%Qc.

(** [s.title()] on ASCII text: a letter that follows a letter is lowered, any
    other letter is raised. *)
Definition is_upper (c : ascii) : bool :=
  ((65 <=? N_of_ascii c) && (N_of_ascii c <=? 90))%N.
Definition is_lower (c : ascii) : bool :=
  ((97 <=? N_of_ascii c) && (N_of_ascii c <=? 122))%N.
Definition to_upper (c : ascii) : ascii :=
  if is_lower c then ascii_of_N (N_of_ascii c - 32) else c.
Definition to_lower (c : ascii) : ascii :=
  if is_upper c then ascii_of_N (N_of_ascii c + 32) else c.

Fixpoint title_from (previous_is_cased : bool) (s : string) : string :=
  match s with
  | EmptyString => EmptyString
  | String c s' =>
      if is_upper c || is_lower c
      then String (if previous_is_cased then to_lower c else to_upper c)
                  (title_from true s')
      else String c (title_from false s')
  end.

Definition title (s : string) : string := title_from false s.

(** [reversed(l)] *)
Abbreviation reversed := reverse (only parsing).

(** [list.sort(key=..., reverse=...)] with keys that are pairs
    [(date, created_at)].  Tuples compare lexicographically; the sort is
    stable, and [reverse=True] keeps it stable by reversing the list before
    and after an ascending sort, as CPython does. *)
Definition key_lt (a b : Z * Z) : bool :=
  (a.1 <? b.1) || ((a.1 =? b.1) && (a.2 <? b.2)).

Section PySort.
Context {A : Type} (key : A → Z * Z).

Fixpoint insert_stable (x : A) (l : list A) : list A :=
  match l with
  | [] => [x]
  | y :: l' => if key_lt (key y) (key x) then y :: insert_stable x l'
               else x :: y :: l'
  end.

Definition stable_sort (l : list A) : list A := foldr insert_stable [] l.

Definition py_sort (reverse : bool) (l : list A) : list A :=
  if reverse then reversed (stable_sort (reversed l)) else stable_sort l.
End PySort.

(** ** Utils *)

(** [_serialize(doc)] renames [_id] to a string [id] and renders dates in ISO
    form.  On the typed documents above, where the identifier and the dates
    are already the abstract values, it changes nothing. *)
Definition _serialize {D} (doc : D) : D := doc.

(** ** Profiles *)

Definition profile_doc (profile : ProfileIn.t) (oid : N) (now : Z) : ProfileDoc :=
  {| p_id := oid; p_name := ProfileIn.name profile; p_email := ProfileIn.email profile;
     p_height_cm := ProfileIn.height_cm profile; p_goal := ProfileIn.goal profile;
     p_created_at := now |}.

Definition put_profile (d : ProfileDoc) (c : collections) : collections :=
  {| userprofile := userprofile c ++ [d]; workout := workout c;
     bodycomposition := bodycomposition c; clock := clock c; next_id := next_id c |}.

Definition create_profile (profile : ProfileIn.t) : M N :=
  let* pid := create_document (profile_doc profile) put_profile in
  ret pid.

Definition get_profile (email : string) : M ProfileDoc :=
  let* docs := get_documents userprofile
                 (λ p, bool_decide (p_email p = email)) (Some 1) in
  match docs with
  | [] => raise (HTTPException 404 "Profile not found")
  | doc :: _ => ret (_serialize doc)
  end.

(** ** Workouts *)

Definition workout_doc (w : WorkoutIn.t) (oid : N) (now : Z) : WorkoutDoc :=
  {| w_id := oid; w_user_email := WorkoutIn.user_email w; w_date := WorkoutIn.date w;
     w_type := Some (WorkoutIn.type w);
     w_duration_min := Some (WorkoutIn.duration_min w);
     w_intensity := WorkoutIn.intensity w; w_notes := WorkoutIn.notes w;
     w_calories := WorkoutIn.calories w; w_exercises := WorkoutIn.exercises w;
     w_created_at := now |}.

Definition put_workout (d : WorkoutDoc) (c : collections) : collections :=
  {| userprofile := userprofile c; workout := workout c ++ [d];
     bodycomposition := bodycomposition c; clock := clock c; next_id := next_id c |}.

Definition add_workout (workout : WorkoutIn.t) : M N :=
  let* wid := create_document (workout_doc workout) put_workout in
  ret wid.

(** The filter [{"user_email": ..., "date": {"$gte": ..., "$lte": ...}}]. *)
Record date_range : Type := { gte_ : option Z; lte_ : option Z }.

Record workout_query : Type := {
  q_user_email : string;
  q_date : option date_range;
}.

Definition in_range (rng : date_range) (d : Z) : bool :=
  from_option (λ lo, bool_decide (lo ≤ d)) true (gte_ rng)
  && from_option (λ hi, bool_decide (d ≤ hi)) true (lte_ rng).

Definition workout_matches (q : workout_query) (w : WorkoutDoc) : bool :=
  bool_decide (w_user_email w = q_user_email q)
  && from_option (λ rng, in_range rng (w_date w)) true (q_date q).

Definition workout_key (d : WorkoutDoc) : Z * Z := (w_date d, w_created_at d).

Definition list_workouts (user_email : string) (start end_ : option Z)
    (limit : option Z) : M (list WorkoutDoc) :=
  let q :=
    {| q_user_email := user_email;
       q_date := if bool_decide (is_Some start) || bool_decide (is_Some end_)
                 then Some {| gte_ := start; lte_ := end_ |}
                 else None |} in
  let* docs := get_documents workout (workout_matches q) limit in
  let docs := py_sort workout_key true docs in
  ret (map _serialize docs).

(** ** Body composition *)

Definition bodycomp_doc (m : BodyCompIn.t) (oid : N) (now : Z) : BodyCompDoc :=
  {| b_id := oid; b_user_email := BodyCompIn.user_email m; b_date := BodyCompIn.date m;
     b_weight_kg := BodyCompIn.weight_kg m; b_body_fat_pct := BodyCompIn.body_fat_pct m;
     b_waist_cm := BodyCompIn.waist_cm m; b_hips_cm := BodyCompIn.hips_cm m;
     b_chest_cm := BodyCompIn.chest_cm m; b_created_at := now |}.

Definition put_bodycomp (d : BodyCompDoc) (c : collections) : collections :=
  {| userprofile := userprofile c; workout := workout c;
     bodycomposition := bodycomposition c ++ [d]; clock := clock c;
     next_id := next_id c |}.

Definition add_bodycomp (measure : BodyCompIn.t) : M N :=
  let* mid := create_document (bodycomp_doc measure) put_bodycomp in
  ret mid.

Definition bodycomp_matches (user_email : string) (b : BodyCompDoc) : bool :=
  bool_decide (b_user_email b = user_email).

Definition bodycomp_key (d : BodyCompDoc) : Z * Z := (b_date d, b_created_at d).

Definition list_bodycomp (user_email : string) (limit : Z) : M (list BodyCompDoc) :=
  let* docs := get_documents bodycomposition (bodycomp_matches user_email)
                 (Some limit) in
  let docs := py_sort bodycomp_key true docs in
  ret (map _serialize docs).

(** ** Insights *)

Module Report.
Record totals : Type := {
  sessions : Z;
  minutes : Qc;
  avg_duration : Qc;
  streak_days : Z;
}.
Record t : Type := {
  totals_ : totals;
  volume_by_day : gmap Z Qc;
  types : gmap string Z;
  suggestions : list string;
  weight_change : option Qc;
}.
End Report.

Definition increase_frequency : string :=
  "Increase frequency: aim for 3-4 sessions per week.".
Definition bump_session_length : string :=
  "Bump average session length toward 30–45 minutes.".
Definition balance_routine : string :=
  "Balance your routine by mixing different workout types.".

(** [float(w.get("duration_min", 0) or 0)] *)
Definition duration_of (w : WorkoutDoc) : Qc := py_or (w_duration_min w) 0%Qc.

Definition total_sessions (wdocs : list WorkoutDoc) : Z := Z.of_nat (length wdocs).

Definition total_minutes (wdocs : list WorkoutDoc) : Qc :=
  py_sum (map duration_of wdocs).

Definition avg_duration (wdocs : list WorkoutDoc) : Qc :=
  if bool_decide (total_sessions wdocs ≠ 0)
  then (total_minutes wdocs / Qc_of_Z (total_sessions wdocs))%Qc
  else 0%Qc.

(** [{str(w.get("date")) for w in wdocs}] *)
Definition days_with (wdocs : list WorkoutDoc) : gset Z :=
  list_to_set (map w_date wdocs).

(** The [while str(d) in days_with] loop, with a budget of iterations. *)
Fixpoint streak_loop (budget : nat) (days_with : gset Z) (d current_streak : Z)
    : result Z :=
  match budget with
  | O => Raise LoopDidNotFinish
  | S budget' =>
      if bool_decide (d ∈ days_with)
      then streak_loop budget' days_with (d - 1) (current_streak + 1)
      else Ok current_streak
  end.

(** One more iteration than there are days in the set is enough: see
    [streak_loop_finishes] and [streak_loop_budget_irrelevant]. *)
Definition current_streak (wdocs : list WorkoutDoc) (today : Z) : result Z :=
  streak_loop (S (size (days_with wdocs))) (days_with wdocs) today 0.

(** The body of [for w in wdocs], on the pair [(by_day, types)]. *)
Definition tally (acc : gmap Z Qc * gmap string Z) (w : WorkoutDoc)
    : gmap Z Qc * gmap string Z :=
  let ds := w_date w in
  let by_day := <[ds := (default 0%Qc (acc.1 !! ds) + duration_of w)%Qc]> acc.1 in
  let t := title (py_or_str (w_type w) "Unknown") in
  let types := <[t := default 0 (acc.2 !! t) + 1]> acc.2 in
  (by_day, types).

Definition by_day_and_types (wdocs : list WorkoutDoc) : gmap Z Qc * gmap string Z :=
  fold_left tally wdocs (∅, ∅).

(** [types and max(types.values()) / (total_sessions or 1) > 0.7] *)
Definition dominant_type (types : gmap string Z) (total_sessions : Z) : result bool :=
  if bool_decide (types = ∅) then Ok false
  else
    let+ top := py_max (map_to_list types).*2 in
    let+ share := py_truediv top (py_or_int total_sessions 1) in
    Ok (bool_decide (Q2Qc (7 # 10) < share)%Qc).

Definition suggestions (days : Z) (wdocs : list WorkoutDoc)
    (types : gmap string Z) : result (list string) :=
  let suggestions : list string := [] in
  let suggestions :=
    if bool_decide (total_sessions wdocs < Z.max 3 (days / 4))
    then (suggestions ++ [increase_frequency])%list else suggestions in
  let suggestions :=
    if bool_decide (avg_duration wdocs < Qc_of_Z 30)%Qc
       && bool_decide (3 ≤ total_sessions wdocs)
    then (suggestions ++ [bump_session_length])%list else suggestions in
  let+ dominant := dominant_type types (total_sessions wdocs) in
  Ok (if dominant then (suggestions ++ [balance_routine])%list else suggestions).

(** The body-composition trend, on the fetched documents. *)
Definition has_weight (b : BodyCompDoc) : bool := bool_decide (is_Some (b_weight_kg b)).

Definition weight_change (bdocs : list BodyCompDoc) : result (option Qc) :=
  let bdocs := py_sort bodycomp_key false bdocs in
  if bool_decide (2 ≤ length bdocs)%nat then
    let first := List.find has_weight bdocs in
    let last := List.find has_weight (reversed bdocs) in
    match first, last with
    | Some first, Some last =>
        let+ l := py_float (b_weight_kg last) in
        let+ f := py_float (b_weight_kg first) in
        Ok (Some (l - f)%Qc)
    | _, _ => Ok None
    end
  else Ok None.

Definition insights_query (user_email : string) (start today : Z) : workout_query :=
  {| q_user_email := user_email;
     q_date := Some {| gte_ := Some start; lte_ := Some today |} |}.

(** [today] is the value of [date.today()] when the handler runs. *)
Definition insights (today : Z) (user_email : string) (days : Z) : M Report.t :=
  let start := today - (days - 1) in
  let* wdocs := get_documents workout
                  (workout_matches (insights_query user_email start today)) None in
  let* streak := lift (current_streak wdocs today) in
  let by_day := (by_day_and_types wdocs).1 in
  let types := (by_day_and_types wdocs).2 in
  let* suggestions := lift (suggestions days wdocs types) in
  let* bdocs := get_documents bodycomposition (bodycomp_matches user_email) None in
  let* weight_change := lift (weight_change bdocs) in
  ret {| Report.totals_ :=
           {| Report.sessions := total_sessions wdocs;
              Report.minutes := total_minutes wdocs;
              Report.avg_duration := py_round1 (avg_duration wdocs);
              Report.streak_days := streak |};
         Report.volume_by_day := by_day;
         Report.types := types;
         Report.suggestions := suggestions;
         Report.weight_change := weight_change |}.

(** ** The routes: parameter and body validation, then the handler *)

Module Route.
Definition post_profile (body : ProfileIn.t) : M N :=
  let* profile := lift (ProfileIn.validate body) in create_profile profile.

Definition get_profile (email : string) : M ProfileDoc := get_profile email.

Definition post_workouts (body : WorkoutIn.t) : M N :=
  let* workout := lift (WorkoutIn.validate body) in add_workout workout.

Definition get_workouts (user_email : string) (start end_ : option Z)
    (limit : option Z) : M (list WorkoutDoc) :=
  let* limit := lift (Query "limit" 50 1 500 limit) in
  list_workouts user_email start end_ (Some limit).

Definition post_bodycomp (body : BodyCompIn.t) : M N :=
  let* measure := lift (BodyCompIn.validate body) in add_bodycomp measure.

Definition get_bodycomp (user_email : string) (limit : option Z)
    : M (list BodyCompDoc) :=
  let* limit := lift (Query "limit" 30 1 365 limit) in
  list_bodycomp user_email limit.

Definition get_insights (today : Z) (user_email : string) (days : option Z)
    : M Report.t :=
  let* days := lift (Query "days" 30 1 365 days) in
  insights today user_email days.
End Route.

(** ** Utils, on dictionaries

    [_serialize] works on any [Dict[str, Any]].  Here a document is a finite
    map from field names to Python values, and [_serialize] is followed
    statement by statement.  [str(...)] and [.isoformat()] are the Python
    built-ins, taken as they come. *)

Module Dict.

#[warnings="-register-all"]
Inductive value : Type :=
| VNone
| VBool (b : bool)
| VInt (n : Z)
| VFloat (x : Qc)
| VStr (s : string)
| VObjectId (oid : N)
| VDate (d : Z)
| VDatetime (t : Z)
| VList (vs : list value).

(** [isinstance(v, (datetime, date))] *)
Definition is_date (v : value) : bool :=
  match v with
  | VDate _ | VDatetime _ => true
  | _ => false
  end.

Section Serialize.
Context (str : value → string) (isoformat : value → string).

(** The body of the loop over [d.items()]: a date or datetime value is
    replaced by its ISO string, any other value is kept. *)
Definition render (v : value) : value :=
  if is_date v then VStr (isoformat v) else v.

Definition _serialize (doc : gmap string value) : gmap string value :=
  if bool_decide (doc = ∅) then doc
  else
    let d := doc in
    let d := match d !! "_id" with
             | Some oid => <["id" := VStr (str oid)]> (delete "_id" d)
             | None => d
             end in
    render <$> d.
End Serialize.

End Dict.

(** ** Basic: the status report of [/test]

    [getenv] is [os.getenv]; [db] is [None] when the handle is not
    initialized, and otherwise carries what [db.list_collection_names()]
    does: it returns the names or raises an exception with a message. *)

Module Status.

Record response : Type := {
  backend : string;
  database : string;
  database_url : string;
  database_name : string;
  connection_status : string;
  collections : list string;
}.

Definition set_database (v : string) (r : response) : response :=
  {| backend := backend r; database := v; database_url := database_url r;
     database_name := database_name r; connection_status := connection_status r;
     collections := collections r |}.

Definition set_connection_status (v : string) (r : response) : response :=
  {| backend := backend r; database := database r; database_url := database_url r;
     database_name := database_name r; connection_status := v;
     collections := collections r |}.

Definition set_collections (v : list string) (r : response) : response :=
  {| backend := backend r; database := database r; database_url := database_url r;
     database_name := database_name r; connection_status := connection_status r;
     collections := v |}.

(** Truthiness of [os.getenv(name)]: unset and empty are falsy. *)
Definition truthy (v : option string) : bool :=
  match v with
  | None | Some "" => false
  | Some _ => true
  end.

(** [s[:80]], on ASCII text (a string here is a sequence of bytes). *)
Definition first80 (s : string) : string := substring 0 80 s.

Definition test_database (getenv : string → option string)
    (db : option (string + list string)) : response :=
  let response :=
    {| backend := "✅ Running";
       database := "❌ Not Available";
       database_url := if truthy (getenv "DATABASE_URL") then "✅ Set" else "❌ Not Set";
       database_name := if truthy (getenv "DATABASE_NAME") then "✅ Set" else "❌ Not Set";
       connection_status := "Not Connected";
       collections := [] |} in
  match db with
  | Some list_collection_names =>
      let response := set_database "✅ Available" response in
      let response := set_connection_status "Connected" response in
      match list_collection_names with
      | inr names =>
          let response := set_collections (take 10 names) response in
          set_database "✅ Connected & Working" response
      | inl e =>
          set_database ("⚠️ Connected but Error: " +:+ first80 e) response
      end
  | None => set_database "⚠️ Available but not initialized" response
  end.

End Status.

(** ** Database schemas ([schemas.py])

    One model per collection, with the constraints of its fields.  Here a
    model checks a stored document: a required field has to be there, and a
    bounded field has to be within its bounds. *)

Module Schemas.






End Schemas.

(** * Properties *)

(** ** Vocabulary of the statements *)

(** What [insights] fetches: the workouts of the user dated in the window
    [today - (days - 1) .. today], and all the body-composition entries of
    the user. *)
Definition fetched_workouts (c : collections) (user_email : string)
    (today days : Z) : list WorkoutDoc :=
  List.filter (workout_matches (insights_query user_email (today - (days - 1)) today))
    (workout c).

Definition fetched_bodycomp (c : collections) (user_email : string)
    : list BodyCompDoc :=
  List.filter (bodycomp_matches user_email) (bodycomposition c).

(** The days of the set that are not after [d]: what the streak loop has left
    to visit. *)
Definition upto (S : gset Z) (d : Z) : gset Z := filter (λ x, x ≤ d) S.

(** The order on sort keys: [(date, created_at)] pairs, lexicographically. *)
Definition key_le (a b : Z * Z) : Prop := a.1 < b.1 ∨ (a.1 = b.1 ∧ a.2 ≤ b.2).

(** A list in ascending, respectively descending, order of its keys. *)
Definition ascending {A} (key : A → Z * Z) (l : list A) : Prop :=
  StronglySorted (λ x y, key_le (key x) (key y)) l.

Definition descending {A} (key : A → Z * Z) (l : list A) : Prop :=
  StronglySorted (λ x y, key_le (key y) (key x)) l.

(** A body-composition entry that carries a weight, and the chronologically
    first and last of those among [entries]. *)
Definition weighted (b : BodyCompDoc) : Prop := is_Some (b_weight_kg b).

Definition first_weighted (entries : list BodyCompDoc) (b : BodyCompDoc) (kg : Qc) : Prop :=
  b ∈ entries ∧ b_weight_kg b = Some kg
  ∧ ∀ b', b' ∈ entries → weighted b' → key_le (bodycomp_key b) (bodycomp_key b').

Definition last_weighted (entries : list BodyCompDoc) (b : BodyCompDoc) (kg : Qc) : Prop :=
  b ∈ entries ∧ b_weight_kg b = Some kg
  ∧ ∀ b', b' ∈ entries → weighted b' → key_le (bodycomp_key b') (bodycomp_key b).

(** The trailing window of [days] days that ends today, and the workouts of a
    user that the store holds in it. *)
Definition in_window (today days : Z) (w : WorkoutDoc) : Prop :=
  today - (days - 1) ≤ w_date w ≤ today.

#[local] Instance in_window_dec today days w : Decision (in_window today days w).
Proof. unfold in_window. apply _. Defined.

Definition window_workouts (c : collections) (user_email : string)
    (today days : Z) : list WorkoutDoc :=
  filter (λ w, w_user_email w = user_email ∧ in_window today days w) (workout c).

(** The minutes an entry counts for, a missing duration counting as none, and
    the sum of a list of numbers. *)
Definition minutes_logged (w : WorkoutDoc) : Qc := default 0%Qc (w_duration_min w).

Fixpoint sum_of (xs : list Qc) : Qc :=
  match xs with
  | [] => 0%Qc
  | x :: xs' => (x + sum_of xs')%Qc
  end.

(** A day on which one of [wdocs] is dated, and [k] being the number of
    consecutive such days that end today. *)
Definition worked_out_on (wdocs : list WorkoutDoc) (d : Z) : Prop :=
  ∃ w, w ∈ wdocs ∧ w_date w = d.

Definition consecutive_days_ending (wdocs : list WorkoutDoc) (today k : Z) : Prop :=
  0 ≤ k
  ∧ (∀ i, 0 ≤ i < k → worked_out_on wdocs (today - i))
  ∧ ¬ worked_out_on wdocs (today - k).

(** Sample data for the worked examples: a workout document with the fields
    the report reads, and a store where one user logged three sessions of
    29.96875 minutes on three consecutive days. *)
Definition logged (oid : N) (user_email : string) (date : Z) (kind : string)
    (minutes : Qc) : WorkoutDoc :=
  {| w_id := oid; w_user_email := user_email; w_date := date;
     w_type := Some kind; w_duration_min := Some minutes;
     w_intensity := None; w_notes := None; w_calories := None;
     w_exercises := None; w_created_at := Z.of_N oid |}.

Definition three_short_sessions : collections :=
  {| userprofile := [];
     workout := [logged 1 "ann@example.org" 738000 "run" (Q2Qc (959 # 32));
                 logged 2 "ann@example.org" 738001 "yoga" (Q2Qc (959 # 32));
                 logged 3 "ann@example.org" 738002 "swim" (Q2Qc (959 # 32))];
     bodycomposition := [];
     clock := 4; next_id := 4 |}.

(** All the body-composition entries the store holds for a user. *)
Definition user_bodycomp (c : collections) (user_email : string)
    : list BodyCompDoc :=
  filter (λ b, b_user_email b = user_email) (bodycomposition c).

(** What a workout listing filters on: the user, and the optional inclusive
    bounds on the date. *)
Definition listed (user_email : string) (start end_ : option Z)
    (w : WorkoutDoc) : Prop :=
  w_user_email w = user_email
  ∧ (∀ s, start = Some s → s ≤ w_date w)
  ∧ (∀ e, end_ = Some e → w_date w ≤ e).

(** A sample body-composition entry, and a store with the three entries of
    the spec's example: 80 kg, then 78 kg, then an entry without weight. *)
Definition measured (oid : N) (user_email : string) (date : Z)
    (kg : option Qc) : BodyCompDoc :=
  {| b_id := oid; b_user_email := user_email; b_date := date;
     b_weight_kg := kg; b_body_fat_pct := None; b_waist_cm := None;
     b_hips_cm := None; b_chest_cm := None; b_created_at := Z.of_N oid |}.

Definition three_checkpoints : collections :=
  {| userprofile := [];
     workout := [];
     bodycomposition := [measured 1 "ann@example.org" 738000 (Some (Qc_of_Z 80));
                         measured 2 "ann@example.org" 738010 (Some (Qc_of_Z 78));
                         measured 3 "ann@example.org" 738020 None];
     clock := 4; next_id := 4 |}.

(** A store where one user logged [n] sessions of 45 minutes, one a day, the
    last of them on day 738002. *)
Definition daily_sessions (n : nat) : collections :=
  {| userprofile := [];
     workout := (λ i, logged (N.of_nat i) "ann@example.org" (738002 - Z.of_nat i)
                        "run" (Qc_of_Z 45)) <$> seq 0 n;
     bodycomposition := [];
     clock := Z.of_nat n; next_id := N.of_nat n |}.

(** ** Vocabulary of the further properties *)


Definition dated (d : Z) (wdocs : list WorkoutDoc) : list WorkoutDoc :=
  filter (λ w, w_date w = d) wdocs.



(** The bounds the request models declare. *)
Definition workout_in_bounds (w : WorkoutIn.t) : Prop :=
  (0 < WorkoutIn.duration_min w)%Qc
  ∧ ∀ c, WorkoutIn.calories w = Some c → (0 ≤ c)%Qc.

Definition bodycomp_in_bounds (m : BodyCompIn.t) : Prop :=
  (∀ x, BodyCompIn.weight_kg m = Some x → (0 < x)%Qc)
  ∧ (∀ x, BodyCompIn.body_fat_pct m = Some x → (0 ≤ x)%Qc ∧ (x ≤ Qc_of_Z 100)%Qc)
  ∧ (∀ x, BodyCompIn.waist_cm m = Some x → (0 < x)%Qc)
  ∧ (∀ x, BodyCompIn.hips_cm m = Some x → (0 < x)%Qc)
  ∧ (∀ x, BodyCompIn.chest_cm m = Some x → (0 < x)%Qc).

Definition profile_in_bounds (p : ProfileIn.t) : Prop :=
  ∀ h, ProfileIn.height_cm p = Some h → (0 < h)%Qc.

(** The workouts of the store that a listing selects, in the order of the
    store. *)
#[local] Instance listed_dec user_email start end_ w :
  Decision (listed user_email start end_ w).
Proof.
  unfold listed.
  destruct (decide (w_user_email w = user_email)) as [He|He]; [|right; tauto].
  destruct start as [s|], end_ as [e|].
  - destruct (decide (s ≤ w_date w)) as [Hs|Hs], (decide (w_date w ≤ e)) as [Hd|Hd].
    + left. split; [done|]. split; intros ? [= <-]; done.
    + right. intros (_ & _ & H). apply Hd. by apply H.
    + right. intros (_ & H & _). apply Hs. by apply H.
    + right. intros (_ & H & _). apply Hs. by apply H.
  - destruct (decide (s ≤ w_date w)) as [Hs|Hs].
    + left. split; [done|]. split; [intros ? [= <-]; done|intros ? [=]].
    + right. intros (_ & H & _). apply Hs. by apply H.
  - destruct (decide (w_date w ≤ e)) as [Hd|Hd].
    + left. split; [done|]. split; [intros ? [=]|intros ? [= <-]; done].
    + right. intros (_ & _ & H). apply Hd. by apply H.
  - left. split; [done|]. split; intros ? [=].
Defined.

Definition matching_workouts (c : collections) (user_email : string)
    (start end_ : option Z) : list WorkoutDoc :=
  filter (listed user_email start end_) (workout c).

(** A valid workout body for the worked examples. *)
Definition evening_run : WorkoutIn.t :=
  {| WorkoutIn.user_email := "ann@example.org"; WorkoutIn.date := 738003;
     WorkoutIn.type := "run"; WorkoutIn.duration_min := Qc_of_Z 40;
     WorkoutIn.intensity := Some "Med"; WorkoutIn.notes := None;
     WorkoutIn.calories := Some (Qc_of_Z 350); WorkoutIn.exercises := None |}.

Definition ann_profile : ProfileIn.t :=
  {| ProfileIn.name := "Ann"; ProfileIn.email := "ann@example.org";
     ProfileIn.height_cm := Some (Qc_of_Z 170); ProfileIn.goal := None |}.



(** ** Running [insights] *)

Lemma insights_run c today user_email days streak sugg wc :
  let wdocs := fetched_workouts c user_email today days in
  current_streak wdocs today = Ok streak →
  suggestions days wdocs (by_day_and_types wdocs).2 = Ok sugg →
  weight_change (fetched_bodycomp c user_email) = Ok wc →
  insights today user_email days (Some c) =
    (Ok {| Report.totals_ :=
             {| Report.sessions := total_sessions wdocs;
                Report.minutes := total_minutes wdocs;
                Report.avg_duration := py_round1 (avg_duration wdocs);
                Report.streak_days := streak |};
           Report.volume_by_day := (by_day_and_types wdocs).1;
           Report.types := (by_day_and_types wdocs).2;
           Report.suggestions := sugg;
           Report.weight_change := wc |}, Some c).
Proof.
  intros wdocs Hs Hg Hw. unfold insights, bind, get_documents, lift, ret; simpl.
  fold (fetched_workouts c user_email today days). fold wdocs.
  rewrite Hs, Hg. fold (fetched_bodycomp c user_email). rewrite Hw. reflexivity.
Qed.

Lemma fetched_workouts_spec c user_email today days w :
  w ∈ fetched_workouts c user_email today days ↔
  w ∈ workout c ∧ w_user_email w = user_email
  ∧ today - (days - 1) ≤ w_date w ≤ today.
Proof.
  unfold fetched_workouts. rewrite !list_elem_of_In, filter_In.
  unfold workout_matches, insights_query, in_range; simpl.
  rewrite !andb_true_iff, !bool_decide_eq_true. tauto.
Qed.

(** ** The streak loop *)

Lemma streak_loop_budget_irrelevant budget budget' S d acc n :
  streak_loop budget S d acc = Ok n → (budget ≤ budget')%nat →
  streak_loop budget' S d acc = Ok n.
Proof.
  revert budget' d acc. induction budget as [|b IH]; intros b' d acc H Hle; [discriminate|].
  destruct b' as [|b']; [lia|]. simpl in *.
  case_bool_decide; [|done]. apply IH; [done|lia].
Qed.

Lemma streak_loop_spec budget S d acc n :
  streak_loop budget S d acc = Ok n →
  acc ≤ n ∧ (∀ i, 0 ≤ i < n - acc → d - i ∈ S) ∧ d - (n - acc) ∉ S.
Proof.
  revert d acc. induction budget as [|b IH]; intros d acc H; [discriminate|].
  simpl in H. case_bool_decide as Hd.
  - apply IH in H as (Hle & Hin & Hout). split; [lia|]. split.
    + intros i Hi. destruct (decide (i = 0)) as [->|].
      * by rewrite Z.sub_0_r.
      * replace (d - i) with (d - 1 - (i - 1)) by lia. apply Hin. lia.
    + replace (d - (n - acc)) with (d - 1 - (n - (acc + 1))) by lia. done.
  - injection H as <-. split; [lia|]. split; [intros; lia|].
    by rewrite Z.sub_diag, Z.sub_0_r.
Qed.

Lemma upto_pred_size S d : d ∈ S → (size (upto S (d - 1)) < size (upto S d))%nat.
Proof.
  intros Hd. apply subset_size, strict_spec_alt. unfold upto. split.
  - intros x. rewrite !elem_of_filter. intros [??]. split; [lia|done].
  - intros Heq. assert (d ∈ filter (λ x, x ≤ d - 1) S) as Hin.
    { rewrite Heq. apply elem_of_filter. split; [lia|done]. }
    apply elem_of_filter in Hin as [??]. lia.
Qed.

Lemma upto_size S d : (size (upto S d) ≤ size S)%nat.
Proof.
  apply subseteq_size. intros x. unfold upto. rewrite elem_of_filter. tauto.
Qed.

Lemma streak_loop_finishes budget S d acc :
  (size (upto S d) < budget)%nat → ∃ n, streak_loop budget S d acc = Ok n.
Proof.
  revert d acc. induction budget as [|b IH]; intros d acc Hb; [lia|].
  simpl. case_bool_decide as Hd; [|by eexists].
  apply IH. pose proof (upto_pred_size S d Hd). lia.
Qed.

Lemma current_streak_finishes wdocs today :
  ∃ n, current_streak wdocs today = Ok n.
Proof.
  apply streak_loop_finishes. pose proof (upto_size (days_with wdocs) today). lia.
Qed.

Lemma elem_of_days_with wdocs d :
  d ∈ days_with wdocs ↔ ∃ w, w ∈ wdocs ∧ w_date w = d.
Proof.
  unfold days_with. rewrite elem_of_list_to_set, list_elem_of_fmap.
  split; intros (w & ? & ?); exists w; done.
Qed.

(** ** Sorting *)

Lemma key_lt_false a b : key_lt a b = false ↔ key_le b a.
Proof.
  unfold key_lt, key_le. destruct a as [a1 a2], b as [b1 b2]; simpl.
  rewrite orb_false_iff, andb_false_iff, !Z.ltb_ge, Z.eqb_neq. lia.
Qed.

Lemma key_lt_true a b : key_lt a b = true → key_le a b.
Proof.
  unfold key_lt, key_le. destruct a as [a1 a2], b as [b1 b2]; simpl.
  rewrite orb_true_iff, andb_true_iff, !Z.ltb_lt, Z.eqb_eq. lia.
Qed.

#[local] Instance key_le_trans : Transitive key_le.
Proof. intros [??] [??] [??]. unfold key_le; simpl. lia. Qed.

#[local] Instance key_le_antisymm : AntiSymm (=) key_le.
Proof. intros [??] [??]. unfold key_le; simpl. intros ??. f_equal; lia. Qed.

#[local] Instance key_ge_trans : Transitive (flip key_le).
Proof. intros x y z ??. by trans y. Qed.

#[local] Instance key_ge_antisymm : AntiSymm (=) (flip key_le).
Proof. intros x y ??. by apply (anti_symm key_le). Qed.

Section SortFacts.
Context {A : Type} (key : A → Z * Z).

Lemma insert_stable_perm x l : insert_stable key x l ≡ₚ x :: l.
Proof.
  induction l as [|y l IH]; simpl; [done|].
  destruct (key_lt (key y) (key x)); [|done].
  rewrite IH. apply Permutation_swap.
Qed.

Lemma insert_stable_ascending x l :
  ascending key l → ascending key (insert_stable key x l).
Proof.
  unfold ascending. induction l as [|y l IH]; simpl; intros Hl.
  - repeat constructor.
  - apply StronglySorted_inv in Hl as [Hl Hy].
    destruct (key_lt (key y) (key x)) eqn:Hlt.
    + constructor; [by apply IH|].
      rewrite insert_stable_perm. constructor; [by apply key_lt_true|done].
    + apply key_lt_false in Hlt. constructor; [by constructor|].
      constructor; [done|].
      eapply Forall_impl; [exact Hy|]. intros z Hz. simpl in Hz. by trans (key y).
Qed.

Lemma stable_sort_perm l : stable_sort key l ≡ₚ l.
Proof.
  induction l as [|x l IH]; simpl; [done|].
  by rewrite insert_stable_perm, IH.
Qed.

Lemma stable_sort_ascending l : ascending key (stable_sort key l).
Proof.
  induction l as [|x l IH]; simpl; [constructor|].
  by apply insert_stable_ascending.
Qed.

Lemma ascending_reverse l : ascending key l → descending key (reverse l).
Proof.
  unfold ascending, descending. induction 1 as [|x l Hl IH Hx]; [constructor|].
  rewrite reverse_cons. apply StronglySorted_app_2.
  - intros y z Hy Hz. apply list_elem_of_singleton in Hz as ->.
    rewrite Forall_forall in Hx. apply Hx. by apply elem_of_reverse.
  - exact IH.
  - repeat constructor.
Qed.

Lemma py_sort_perm reverse l : py_sort key reverse l ≡ₚ l.
Proof.
  destruct reverse; simpl; [|apply stable_sort_perm].
  by rewrite reverse_Permutation, stable_sort_perm, reverse_Permutation.
Qed.

Lemma py_sort_ascending l : ascending key (py_sort key false l).
Proof. apply stable_sort_ascending. Qed.






End SortFacts.

(** ** The weight trend *)

Lemma key_le_refl a : key_le a a.
Proof. unfold key_le. lia. Qed.

Lemma find_sorted_first {A} (R : relation A) (f : A → bool) (l : list A) x :
  (∀ a, R a a) → StronglySorted R l → List.find f l = Some x →
  x ∈ l ∧ f x = true ∧ ∀ y, y ∈ l → f y = true → R x y.
Proof.
  intros Hrefl. induction 1 as [|a l Hl IH Ha]; simpl; [discriminate|].
  destruct (f a) eqn:Hfa.
  - intros [= ->]. split; [left|]. split; [done|].
    intros y Hy _. apply elem_of_cons in Hy as [->|Hy]; [done|].
    rewrite Forall_forall in Ha. by apply Ha.
  - intros Hfind. destruct (IH Hfind) as (Hx & Hfx & Hmin).
    split; [by right|]. split; [done|].
    intros y Hy Hfy. apply elem_of_cons in Hy as [->|Hy]; [congruence|by apply Hmin].
Qed.

Lemma find_is_Some {A} (f : A → bool) (l : list A) y :
  y ∈ l → f y = true → is_Some (List.find f l).
Proof.
  induction l as [|a l IH]; simpl; intros Hy Hfy; [by apply elem_of_nil in Hy|].
  destruct (f a) eqn:Hfa; [by eexists|].
  apply elem_of_cons in Hy as [->|Hy]; [congruence|by apply IH].
Qed.

Lemma find_is_None {A} (f : A → bool) (l : list A) :
  (∀ y, y ∈ l → f y = false) → List.find f l = None.
Proof.
  induction l as [|a l IH]; simpl; intros Hl; [done|].
  rewrite (Hl a) by left. apply IH. intros y Hy. apply Hl. by right.
Qed.

Lemma has_weight_weighted b : has_weight b = true ↔ weighted b.
Proof. unfold has_weight. apply bool_decide_eq_true. Qed.

Lemma weight_change_short bdocs :
  (length bdocs < 2)%nat → weight_change bdocs = Ok None.
Proof.
  intros Hlen. unfold weight_change.
  rewrite bool_decide_eq_false_2; [done|].
  rewrite (Permutation_length (py_sort_perm bodycomp_key false bdocs)). lia.
Qed.

Lemma weight_change_unweighted bdocs :
  (∀ b, b ∈ bdocs → ¬ weighted b) → weight_change bdocs = Ok None.
Proof.
  intros Hnone. unfold weight_change. case_bool_decide; [|done].
  rewrite find_is_None; [done|].
  intros b Hb. rewrite py_sort_perm in Hb.
  apply not_true_is_false. rewrite has_weight_weighted. by apply Hnone.
Qed.

Lemma weight_change_trend bdocs :
  (2 ≤ length bdocs)%nat → (∃ b, b ∈ bdocs ∧ weighted b) →
  ∃ f l kgf kgl, first_weighted bdocs f kgf ∧ last_weighted bdocs l kgl
                 ∧ weight_change bdocs = Ok (Some (kgl - kgf)%Qc).
Proof.
  intros Hlen (b & Hb & Hwb). unfold weight_change.
  pose proof (py_sort_perm bodycomp_key false bdocs) as Hperm.
  pose proof (py_sort_ascending bodycomp_key bdocs) as Hasc.
  set (sorted := py_sort bodycomp_key false bdocs) in *.
  rewrite bool_decide_eq_true_2 by (rewrite (Permutation_length Hperm); lia).
  assert (b ∈ sorted) as Hbs by (by rewrite Hperm).
  apply has_weight_weighted in Hwb.
  destruct (find_is_Some has_weight sorted b Hbs Hwb) as [f Hf].
  assert (b ∈ reverse sorted) as Hbr by (by apply elem_of_reverse).
  destruct (find_is_Some has_weight (reverse sorted) b Hbr Hwb) as [l Hl].
  rewrite Hf, Hl.
  apply find_sorted_first with (R := λ x y, key_le (bodycomp_key x) (bodycomp_key y))
    in Hf as (Hfin & Hfw & Hfmin); [|intros; apply key_le_refl|exact Hasc].
  apply find_sorted_first with (R := λ x y, key_le (bodycomp_key y) (bodycomp_key x))
    in Hl as (Hlin & Hlw & Hlmax);
    [|intros; apply key_le_refl|by apply ascending_reverse].
  apply has_weight_weighted in Hfw as [kgf Hkgf], Hlw as [kgl Hkgl].
  exists f, l, kgf, kgl. rewrite Hkgf, Hkgl. simpl.
  apply (proj1 (elem_of_reverse _ _)) in Hlin.
  split; [|split; [|done]].
  - split; [by rewrite <-Hperm|]. split; [done|].
    intros b' Hb' Hw'. apply Hfmin; [by rewrite Hperm|by apply has_weight_weighted].
  - split; [by rewrite <-Hperm|]. split; [done|].
    intros b' Hb' Hw'. apply Hlmax; [apply elem_of_reverse; by rewrite Hperm
                                     |by apply has_weight_weighted].
Qed.

Lemma weight_change_total bdocs : ∃ wc, weight_change bdocs = Ok wc.
Proof.
  destruct (decide (2 ≤ length bdocs)%nat) as [Hlen|Hlen].
  - destruct (decide (Exists weighted bdocs)) as [Hex|Hno].
    + apply Exists_exists in Hex.
      destruct (weight_change_trend bdocs Hlen Hex) as (?&?&?&?&?&?&?). by eexists.
    + exists None. apply weight_change_unweighted. intros b Hb Hw.
      apply Hno, Exists_exists. by exists b.
  - exists None. apply weight_change_short. lia.
Qed.

(** ** Totals *)

Lemma fetched_workouts_window c user_email today days :
  fetched_workouts c user_email today days = window_workouts c user_email today days.
Proof.
  unfold fetched_workouts, window_workouts.
  induction (workout c) as [|w l IH]; [done|].
  rewrite filter_cons. simpl. rewrite IH.
  unfold workout_matches, insights_query, in_range, in_window; simpl.
  destruct (decide _) as [[He Hw]|Hn].
  - rewrite !bool_decide_eq_true_2 by (done || lia). done.
  - destruct (bool_decide (w_user_email w = user_email)) eqn:He; [|done].
    apply bool_decide_eq_true in He. simpl.
    destruct (bool_decide (today - (days - 1) ≤ w_date w)) eqn:H1; [|done].
    destruct (bool_decide (w_date w ≤ today)) eqn:H2; [|done].
    apply bool_decide_eq_true in H1, H2. tauto.
Qed.

Lemma duration_of_minutes_logged w : duration_of w = minutes_logged w.
Proof.
  unfold duration_of, minutes_logged, py_or.
  destruct (w_duration_min w) as [v|]; simpl; [|done].
  by case_bool_decide.
Qed.




Lemma py_round1_0 : py_round1 0%Qc = 0%Qc.
Proof. apply Qc_is_canon. reflexivity. Qed.

(** ** Workout types and the variety check *)

Lemma tally_types_nonempty l acc :
  acc.2 ≠ ∅ ∨ l ≠ [] → (fold_left tally l acc).2 ≠ ∅.
Proof.
  revert acc. induction l as [|w l IH]; intros acc Hacc; simpl.
  - by destruct Hacc.
  - apply IH. left. unfold tally; simpl. apply insert_non_empty.
Qed.

Lemma types_nonempty wdocs :
  (by_day_and_types wdocs).2 ≠ ∅ ↔ wdocs ≠ [].
Proof.
  split.
  - intros Hne ->. by apply Hne.
  - intros Hne. apply tally_types_nonempty. by right.
Qed.

Lemma py_or_int_nonzero n : py_or_int n 1 ≠ 0.
Proof. unfold py_or_int. case_bool_decide; lia. Qed.

Lemma dominant_type_total (types : gmap string Z) n :
  ∃ b, dominant_type types n = Ok b.
Proof.
  unfold dominant_type. case_bool_decide as Hty; [by eexists|].
  destruct ((map_to_list types).*2) as [|x xs] eqn:Hvals.
  { apply fmap_nil_inv, map_to_list_empty_iff in Hvals. done. }
  simpl. unfold py_truediv.
  rewrite bool_decide_eq_false_2 by apply py_or_int_nonzero.
  simpl. by eexists.
Qed.

(** ** Suggestions *)

Lemma suggestions_total days wdocs types :
  ∃ l, suggestions days wdocs types = Ok l.
Proof.
  unfold suggestions.
  destruct (dominant_type_total types (total_sessions wdocs)) as [b ->].
  simpl. by eexists.
Qed.

Lemma messages_distinct :
  increase_frequency ≠ bump_session_length
  ∧ increase_frequency ≠ balance_routine
  ∧ bump_session_length ≠ balance_routine.
Proof. repeat split; discriminate. Qed.

Lemma suggestions_spec days wdocs types l :
  suggestions days wdocs types = Ok l →
  (increase_frequency ∈ l ↔ total_sessions wdocs < Z.max 3 (days / 4))
  ∧ (bump_session_length ∈ l ↔
       (avg_duration wdocs < Qc_of_Z 30)%Qc ∧ 3 ≤ total_sessions wdocs)
  ∧ (balance_routine ∈ l ↔ dominant_type types (total_sessions wdocs) = Ok true).
Proof.
  destruct messages_distinct as (H12 & H13 & H23).
  unfold suggestions.
  destruct (dominant_type_total types (total_sessions wdocs)) as [b ->]. simpl.
  intros [= <-].
  destruct b; repeat case_bool_decide; simpl;
    rewrite ?elem_of_app, ?elem_of_cons, ?elem_of_nil;
    intuition (try congruence; try done).
Qed.

(** ** Rounding to one decimal *)




(** ** The report of [insights] *)

Lemma insights_report c today user_email days :
  let wdocs := fetched_workouts c user_email today days in
  ∃ streak sugg wc,
    current_streak wdocs today = Ok streak
    ∧ suggestions days wdocs (by_day_and_types wdocs).2 = Ok sugg
    ∧ weight_change (fetched_bodycomp c user_email) = Ok wc
    ∧ insights today user_email days (Some c) =
        (Ok {| Report.totals_ :=
                 {| Report.sessions := total_sessions wdocs;
                    Report.minutes := total_minutes wdocs;
                    Report.avg_duration := py_round1 (avg_duration wdocs);
                    Report.streak_days := streak |};
               Report.volume_by_day := (by_day_and_types wdocs).1;
               Report.types := (by_day_and_types wdocs).2;
               Report.suggestions := sugg;
               Report.weight_change := wc |}, Some c).
Proof.
  intros wdocs.
  destruct (current_streak_finishes wdocs today) as [streak Hs].
  destruct (suggestions_total days wdocs (by_day_and_types wdocs).2) as [sugg Hg].
  destruct (weight_change_total (fetched_bodycomp c user_email)) as [wc Hw].
  exists streak, sugg, wc. repeat split; try done. by apply insights_run.
Qed.

Lemma current_streak_consecutive wdocs today n :
  current_streak wdocs today = Ok n → consecutive_days_ending wdocs today n.
Proof.
  intros H. apply streak_loop_spec in H as (H0 & Hin & Hout).
  rewrite Z.sub_0_r in *. split; [done|]. split.
  - intros i Hi. apply elem_of_days_with, Hin, Hi.
  - intros Hw. by apply Hout, elem_of_days_with.
Qed.

Lemma consecutive_days_ending_unique wdocs today k n :
  consecutive_days_ending wdocs today k →
  consecutive_days_ending wdocs today n → k = n.
Proof.
  intros (Hk0 & Hk & Hknot) (Hn0 & Hn & Hnnot).
  destruct (Z.lt_trichotomy k n) as [Hlt|[->|Hgt]]; [|done|].
  - exfalso. apply Hknot, Hn. lia.
  - exfalso. apply Hnnot, Hk. lia.
Qed.

(** C1. The reported [streak_days] is the number of consecutive calendar
    days, ending today and counting today, on each of which a fetched workout
    is dated: every one of the [streak_days] days back from today has a
    fetched workout, the day before them has none, and no other number has
    this property.  With no workout dated today the streak is 0. *)
Theorem streak_days_counts_back_from_today c today user_email days :
  ∃ r, insights today user_email days (Some c) = (Ok r, Some c)
    ∧ let wdocs := window_workouts c user_email today days in
      let n := Report.streak_days (Report.totals_ r) in
      consecutive_days_ending wdocs today n
      ∧ (∀ k, consecutive_days_ending wdocs today k → k = n)
      ∧ (¬ worked_out_on wdocs today → n = 0).
Proof.
  destruct (insights_report c today user_email days)
    as (streak & sugg & wc & Hs & _ & _ & Hrun).
  eexists. split; [exact Hrun|]. simpl.
  apply current_streak_consecutive in Hs.
  rewrite fetched_workouts_window in Hs.
  split; [done|]. split.
  - intros k Hk. by eapply consecutive_days_ending_unique.
  - intros Hnone. destruct Hs as (H0 & Hin & _).
    destruct (decide (streak = 0)) as [|Hne]; [done|].
    exfalso. apply Hnone. specialize (Hin 0). rewrite Z.sub_0_r in Hin.
    apply Hin. lia.
Qed.

(** ** Query parameters *)

Lemma Query_range loc default lo hi raw v :
  lo ≤ default ≤ hi → Query loc default lo hi raw = Ok v → lo ≤ v ≤ hi.
Proof.
  unfold Query. intros Hd. destruct raw as [x|]; [|by intros [= <-]].
  case_bool_decide; [by intros [= <-]|discriminate].
Qed.

Lemma get_insights_valid today user_email raw days db :
  Query "days" 30 1 365 raw = Ok days →
  Route.get_insights today user_email raw db = insights today user_email days db.
Proof. intros H. unfold Route.get_insights, bind, lift. by rewrite H. Qed.

(** C10. The streak loop ends, and the streak it reports is at most [days]:
    every fetched workout is dated within the [days] days that end today, so
    the loop leaves the set after at most [days] steps.  Any iteration budget
    above the number of distinct days gives the reported streak. *)
Theorem streak_loop_ends_within_days c today user_email raw days :
  Query "days" 30 1 365 raw = Ok days →
  ∃ r, Route.get_insights today user_email raw (Some c) = (Ok r, Some c)
    ∧ let wdocs := window_workouts c user_email today days in
      (∀ w, w ∈ wdocs → today - (days - 1) ≤ w_date w ≤ today)
      ∧ (∀ budget, (size (days_with wdocs) < budget)%nat →
           streak_loop budget (days_with wdocs) today 0
           = Ok (Report.streak_days (Report.totals_ r)))
      ∧ 0 ≤ Report.streak_days (Report.totals_ r) ≤ days.
Proof.
  intros Hq. rewrite (get_insights_valid _ _ _ _ _ Hq).
  apply Query_range in Hq; [|lia].
  destruct (insights_report c today user_email days)
    as (streak & sugg & wc & Hs & _ & _ & Hrun).
  eexists. split; [exact Hrun|]. simpl.
  rewrite <-fetched_workouts_window.
  assert (Hwin : ∀ w, w ∈ fetched_workouts c user_email today days →
                      today - (days - 1) ≤ w_date w ≤ today).
  { intros w Hw. by apply fetched_workouts_spec in Hw as (_ & _ & ?). }
  split; [exact Hwin|]. split.
  - intros budget Hb. unfold current_streak in Hs.
    set (wdocs := fetched_workouts c user_email today days) in *.
    destruct (streak_loop_finishes budget (days_with wdocs) today 0) as [n Hn].
    { pose proof (upto_size (days_with wdocs) today). lia. }
    rewrite Hn. f_equal.
    destruct (Nat.le_ge_cases budget (S (size (days_with wdocs)))) as [Hle|Hge].
    + apply (streak_loop_budget_irrelevant _ _ _ _ _ _ Hn) in Hle.
      unfold Ok in *. congruence.
    + apply (streak_loop_budget_irrelevant _ _ _ _ _ _ Hs) in Hge.
      unfold Ok in *. congruence.
  - apply current_streak_consecutive in Hs as (H0 & Hin & _).
    split; [done|].
    destruct (decide (streak = 0)) as [->|Hne]; [lia|].
    destruct (Hin (streak - 1)) as (w & Hw & Hd); [lia|].
    apply Hwin in Hw. lia.
Qed.

Lemma streak_loop_ends_within_days_witness :
  Query "days" 30 1 365 (Some 30) = Ok 30
  ∧ ∃ r, Route.get_insights 738002 "ann@example.org" (Some 30)
           (Some three_short_sessions) = (Ok r, Some three_short_sessions)
      ∧ let wdocs := window_workouts three_short_sessions "ann@example.org" 738002 30 in
        (∀ w, w ∈ wdocs → 738002 - (30 - 1) ≤ w_date w ≤ 738002)
        ∧ (∀ budget, (size (days_with wdocs) < budget)%nat →
             streak_loop budget (days_with wdocs) 738002 0
             = Ok (Report.streak_days (Report.totals_ r)))
        ∧ 0 ≤ Report.streak_days (Report.totals_ r) ≤ 30.
Proof.
  split; [reflexivity|].
  apply (streak_loop_ends_within_days three_short_sessions 738002
           "ann@example.org" (Some 30) 30).
  reflexivity.
Defined.

(** C3. The frequency suggestion is in the list exactly when the number of
    sessions is below [max(3, days // 4)]. *)
Theorem frequency_suggestion_threshold c today user_email days :
  ∃ r, insights today user_email days (Some c) = (Ok r, Some c)
    ∧ (increase_frequency ∈ Report.suggestions r
       ↔ Report.sessions (Report.totals_ r) < Z.max 3 (days / 4)).
Proof.
  destruct (insights_report c today user_email days)
    as (streak & sugg & wc & _ & Hg & _ & Hrun).
  eexists. split; [exact Hrun|]. simpl.
  by apply suggestions_spec in Hg as (Hfreq & _ & _).
Qed.

(** With [days = 30] the bound is 7: five sessions get the suggestion, eight
    sessions do not. *)
Lemma frequency_suggestion_threshold_witness :
  Z.max 3 (30 / 4) = 7
  ∧ (∃ r, insights 738002 "ann@example.org" 30 (Some (daily_sessions 5))
          = (Ok r, Some (daily_sessions 5))
        ∧ Report.sessions (Report.totals_ r) = 5
        ∧ increase_frequency ∈ Report.suggestions r)
  ∧ (∃ r, insights 738002 "ann@example.org" 30 (Some (daily_sessions 8))
          = (Ok r, Some (daily_sessions 8))
        ∧ Report.sessions (Report.totals_ r) = 8
        ∧ increase_frequency ∉ Report.suggestions r).
Proof.
  split; [reflexivity|]. split.
  - destruct (frequency_suggestion_threshold (daily_sessions 5) 738002
                "ann@example.org" 30) as (r & Hrun & Hiff).
    exists r. split; [exact Hrun|].
    assert (Report.sessions (Report.totals_ r) = 5) as Hn.
    { vm_compute in Hrun. by injection Hrun as <-. }
    split; [exact Hn|]. apply Hiff. rewrite Hn. reflexivity.
  - destruct (frequency_suggestion_threshold (daily_sessions 8) 738002
                "ann@example.org" 30) as (r & Hrun & Hiff).
    exists r. split; [exact Hrun|].
    assert (Report.sessions (Report.totals_ r) = 8) as Hn.
    { vm_compute in Hrun. by injection Hrun as <-. }
    split; [exact Hn|]. rewrite Hiff, Hn. intros Hlt. vm_compute in Hlt. discriminate.
Defined.






(** ** The list endpoints *)

Lemma get_workouts_run c user_email start end_ raw limit :
  Query "limit" 50 1 500 raw = Ok limit →
  Route.get_workouts user_email start end_ raw (Some c) =
    (Ok (py_sort workout_key true
           (take (Z.to_nat limit)
              (List.filter
                 (workout_matches
                    {| q_user_email := user_email;
                       q_date := if bool_decide (is_Some start) || bool_decide (is_Some end_)
                                 then Some {| gte_ := start; lte_ := end_ |}
                                 else None |})
                 (workout c)))), Some c).
Proof.
  intros Hq. unfold Route.get_workouts, bind, lift. rewrite Hq.
  unfold list_workouts, bind, get_documents, ret, _serialize; simpl.
  by rewrite map_id.
Qed.

Lemma get_bodycomp_run c user_email raw limit :
  Query "limit" 30 1 365 raw = Ok limit →
  Route.get_bodycomp user_email raw (Some c) =
    (Ok (py_sort bodycomp_key true
           (take (Z.to_nat limit)
              (List.filter (bodycomp_matches user_email) (bodycomposition c)))),
     Some c).
Proof.
  intros Hq. unfold Route.get_bodycomp, bind, lift. rewrite Hq.
  unfold list_bodycomp, bind, get_documents, ret, _serialize; simpl.
  by rewrite map_id.
Qed.

Lemma workout_matches_listed user_email start end_ w :
  workout_matches
    {| q_user_email := user_email;
       q_date := if bool_decide (is_Some start) || bool_decide (is_Some end_)
                 then Some {| gte_ := start; lte_ := end_ |}
                 else None |} w = true
  ↔ listed user_email start end_ w.
Proof.
  unfold workout_matches, listed, in_range; simpl.
  rewrite andb_true_iff, bool_decide_eq_true.
  destruct start as [s|], end_ as [e|]; simpl;
    rewrite ?andb_true_iff, ?bool_decide_eq_true;
    (split; [intros (He & Hd); split; [done|];
             split; intros ? [= <-] || intros ? [=]; tauto
            |intros (He & Hs & Hend); split; [done|];
             repeat split; auto]).
Qed.

Lemma filter_nothing {A} (f : A → bool) (l : list A) :
  (∀ x, x ∈ l → f x ≠ true) → List.filter f l = [].
Proof.
  induction l as [|a l IH]; simpl; intros Hl; [done|].
  destruct (f a) eqn:Hfa.
  - exfalso. by apply (Hl a); [left|].
  - apply IH. intros x Hx. apply Hl. by right.
Qed.

Lemma py_sort_nil {A} (key : A → Z * Z) reverse : py_sort key reverse [] = [].
Proof. by destruct reverse. Qed.



(** C7. A profile lookup that matches no document fails with a 404, while the
    workout list and the body-composition list return an empty sequence when
    no document matches their filter. *)
Theorem not_found_only_for_profiles c email user_email start end_
    raw_w limit_w raw_b limit_b :
  (∀ p, p ∈ userprofile c → p_email p ≠ email) →
  (∀ w, w ∈ workout c → ¬ listed user_email start end_ w) →
  (∀ b, b ∈ bodycomposition c → b_user_email b ≠ user_email) →
  Query "limit" 50 1 500 raw_w = Ok limit_w →
  Query "limit" 30 1 365 raw_b = Ok limit_b →
  Route.get_profile email (Some c)
    = (Raise (HTTPException 404 "Profile not found"), Some c)
  ∧ Route.get_workouts user_email start end_ raw_w (Some c) = (Ok [], Some c)
  ∧ Route.get_bodycomp user_email raw_b (Some c) = (Ok [], Some c).
Proof.
  intros Hp Hw Hb Hqw Hqb. split; [|split].
  - unfold Route.get_profile, get_profile, bind, get_documents; simpl.
    rewrite filter_nothing; [done|].
    intros p Hin. rewrite bool_decide_eq_true. by apply Hp.
  - rewrite (get_workouts_run _ _ _ _ _ _ Hqw).
    rewrite filter_nothing; [by rewrite take_nil, py_sort_nil|].
    intros w Hin. rewrite workout_matches_listed. by apply Hw.
  - rewrite (get_bodycomp_run _ _ _ _ Hqb).
    rewrite filter_nothing; [by rewrite take_nil, py_sort_nil|].
    intros b Hin. unfold bodycomp_matches. rewrite bool_decide_eq_true. by apply Hb.
Qed.

Lemma not_found_only_for_profiles_witness :
  Route.get_profile "bob@example.org" (Some three_short_sessions)
    = (Raise (HTTPException 404 "Profile not found"), Some three_short_sessions)
  ∧ Route.get_workouts "bob@example.org" (Some 738000) None None
      (Some three_short_sessions) = (Ok [], Some three_short_sessions)
  ∧ Route.get_bodycomp "bob@example.org" (Some 10)
      (Some three_short_sessions) = (Ok [], Some three_short_sessions).
Proof.
  apply (not_found_only_for_profiles three_short_sessions "bob@example.org"
           "bob@example.org" (Some 738000) None None 50 (Some 10) 10).
  - intros p Hp. by apply elem_of_nil in Hp.
  - intros w Hw [He _]. simpl in Hw.
    repeat (apply elem_of_cons in Hw as [->|Hw]; [discriminate He|]).
    by apply elem_of_nil in Hw.
  - intros b Hb. by apply elem_of_nil in Hb.
  - reflexivity.
  - reflexivity.
Defined.

(** C8. Out-of-bounds inputs are rejected with a validation error whatever
    the state of the store, which is left as it was: a workout with
    [duration_min = 0], a body-composition entry with [body_fat_pct = 101] or
    with [weight_kg = -1], and a workout listing with [limit = 501]. *)
Theorem out_of_bounds_inputs_rejected :
  (∀ db user_email date type intensity notes calories exercises,
     ∃ locs,
       Route.post_workouts
         {| WorkoutIn.user_email := user_email; WorkoutIn.date := date;
            WorkoutIn.type := type; WorkoutIn.duration_min := 0%Qc;
            WorkoutIn.intensity := intensity; WorkoutIn.notes := notes;
            WorkoutIn.calories := calories; WorkoutIn.exercises := exercises |} db
       = (Raise (RequestValidationError locs), db)
       ∧ "duration_min" ∈ locs)
  ∧ (∀ db user_email date weight_kg waist_cm hips_cm chest_cm,
       ∃ locs,
         Route.post_bodycomp
           {| BodyCompIn.user_email := user_email; BodyCompIn.date := date;
              BodyCompIn.weight_kg := weight_kg;
              BodyCompIn.body_fat_pct := Some (Qc_of_Z 101);
              BodyCompIn.waist_cm := waist_cm; BodyCompIn.hips_cm := hips_cm;
              BodyCompIn.chest_cm := chest_cm |} db
         = (Raise (RequestValidationError locs), db)
         ∧ "body_fat_pct" ∈ locs)
  ∧ (∀ db user_email date body_fat_pct waist_cm hips_cm chest_cm,
       ∃ locs,
         Route.post_bodycomp
           {| BodyCompIn.user_email := user_email; BodyCompIn.date := date;
              BodyCompIn.weight_kg := Some (Qc_of_Z (-1));
              BodyCompIn.body_fat_pct := body_fat_pct;
              BodyCompIn.waist_cm := waist_cm; BodyCompIn.hips_cm := hips_cm;
              BodyCompIn.chest_cm := chest_cm |} db
         = (Raise (RequestValidationError locs), db)
         ∧ "weight_kg" ∈ locs)
  ∧ (∀ db user_email start end_,
       Route.get_workouts user_email start end_ (Some 501) db
       = (Raise (RequestValidationError ["limit"]), db)).
Proof.
  split; [|split; [|split]].
  - intros. unfold Route.post_workouts, bind, lift, WorkoutIn.validate,
      WorkoutIn.errors; simpl.
    eexists. split; [reflexivity|]. left.
  - intros. unfold Route.post_bodycomp, bind, lift, BodyCompIn.validate,
      BodyCompIn.errors; simpl.
    destruct (OptionalField "weight_kg" _ weight_kg) as [|loc locs] eqn:Hkg; simpl.
    + eexists. split; [reflexivity|]. left.
    + eexists. split; [reflexivity|].
      right. apply elem_of_app. right. left.
  - intros. unfold Route.post_bodycomp, bind, lift, BodyCompIn.validate,
      BodyCompIn.errors; simpl.
    eexists. split; [reflexivity|]. left.
  - intros. reflexivity.
Qed.

(** C9. The variety check never divides by zero: it returns a verdict for
    every fetched list, the empty one included.  The types are non-empty only
    when there is at least one session, the divisor is never zero, and no
    table of types and no session count make the check raise. *)
Theorem variety_check_never_divides_by_zero :
  (∀ wdocs, ∃ verdict,
     dominant_type (by_day_and_types wdocs).2 (total_sessions wdocs) = Ok verdict)
  ∧ dominant_type (by_day_and_types []).2 (total_sessions []) = Ok false
  ∧ (∀ wdocs, (by_day_and_types wdocs).2 ≠ ∅ → 1 ≤ total_sessions wdocs)
  ∧ (∀ n, py_or_int n 1 ≠ 0 ∧ (n = 0 → py_or_int n 1 = 1))
  ∧ (∀ (types : gmap string Z) n, ∃ verdict, dominant_type types n = Ok verdict).
Proof.
  split; [|split; [|split; [|split]]].
  - intros wdocs. apply dominant_type_total.
  - reflexivity.
  - intros wdocs Hne. apply types_nonempty in Hne.
    unfold total_sessions. destruct wdocs; [done|]. simpl. lia.
  - intros n. split; [apply py_or_int_nonzero|]. by intros ->.
  - apply dominant_type_total.
Qed.

(** Workouts on today and on the two days before, none on the day before
    those: the streak is 3.  A day later, with no workout today, it is 0. *)
Lemma streak_days_counts_back_from_today_witness :
  (∃ r, insights 738002 "ann@example.org" 30 (Some three_short_sessions)
        = (Ok r, Some three_short_sessions)
      ∧ Report.streak_days (Report.totals_ r) = 3)
  ∧ (∃ r, insights 738003 "ann@example.org" 30 (Some three_short_sessions)
          = (Ok r, Some three_short_sessions)
        ∧ Report.streak_days (Report.totals_ r) = 0).
Proof.
  split.
  - destruct (streak_days_counts_back_from_today three_short_sessions 738002
                "ann@example.org" 30) as (r & Hrun & _ & Huniq & _).
    exists r. split; [exact Hrun|]. symmetry. apply Huniq.
    change (window_workouts three_short_sessions "ann@example.org" 738002 30)
      with (workout three_short_sessions).
    split; [lia|]. split.
    + intros i Hi.
      assert (i = 0 ∨ i = 1 ∨ i = 2) as [-> | [-> | ->] ] by lia.
      * exists (logged 3 "ann@example.org" 738002 "swim" (Q2Qc (959 # 32))).
        split; [|reflexivity]. by repeat constructor.
      * exists (logged 2 "ann@example.org" 738001 "yoga" (Q2Qc (959 # 32))).
        split; [|reflexivity]. by repeat constructor.
      * exists (logged 1 "ann@example.org" 738000 "run" (Q2Qc (959 # 32))).
        split; [|reflexivity]. by repeat constructor.
    + intros (w & Hw & Hd). simpl in Hw.
      repeat (apply elem_of_cons in Hw as [->|Hw]; [discriminate Hd|]).
      by apply elem_of_nil in Hw.
  - destruct (streak_days_counts_back_from_today three_short_sessions 738003
                "ann@example.org" 30) as (r & Hrun & _ & _ & Hzero).
    exists r. split; [exact Hrun|]. apply Hzero.
    change (window_workouts three_short_sessions "ann@example.org" 738003 30)
      with (workout three_short_sessions).
    intros (w & Hw & Hd). simpl in Hw.
    repeat (apply elem_of_cons in Hw as [->|Hw]; [discriminate Hd|]).
    by apply elem_of_nil in Hw.
Defined.


(** ** Worked examples *)

Example title_example : title "hIIT run-club 5k" = "Hiit Run-Club 5K".
Proof. reflexivity. Qed.

Example py_round1_example :
  py_round1 (Q2Qc (959 # 32)) = Qc_of_Z 30 ∧ py_round1 (Q2Qc (2994 # 100)) = Q2Qc (299 # 10).
Proof. split; apply Qc_is_canon; reflexivity. Qed.

(** Workouts on today and the two days before, none on the day before
    those: a streak of three days. *)
Example streak_of_three :
  current_streak (workout three_short_sessions) 738002 = Ok 3
  ∧ current_streak (workout three_short_sessions) 738003 = Ok 0.
Proof. split; vm_compute; reflexivity. Qed.

(** Entries of 80 kg, then 78 kg, then one without weight: a change of -2. *)
Example weight_change_of_three_checkpoints :
  weight_change (bodycomposition three_checkpoints) = Ok (Some (Qc_of_Z (-2))).
Proof. vm_compute. do 2 f_equal. apply Qc_is_canon. reflexivity. Qed.

(** The sort is stable in both directions: documents with equal keys keep
    their order of arrival, so the ascending order reversed lists them the
    other way round than the descending order does. *)
Example py_sort_is_stable :
  let a := measured 1 "ann@example.org" 738000 None in
  let b := {| b_id := 2; b_user_email := "ann@example.org"; b_date := 738000;
              b_weight_kg := Some 1%Qc; b_body_fat_pct := None; b_waist_cm := None;
              b_hips_cm := None; b_chest_cm := None; b_created_at := 1 |} in
  py_sort bodycomp_key false [a; b] = [a; b]
  ∧ py_sort bodycomp_key true [a; b] = [a; b]
  ∧ reverse (py_sort bodycomp_key false [a; b]) = [b; a].
Proof. repeat split; reflexivity. Qed.

(** * Further properties of the code *)

(** ** [_serialize] on dictionaries *)

Section SerializeFacts.
Context (str : Dict.value → string) (isoformat : Dict.value → string).

#[local] Abbreviation serialize := (Dict._serialize str isoformat).
#[local] Abbreviation render := (Dict.render isoformat).

Lemma render_not_date v : Dict.is_date (render v) = false.
Proof. unfold Dict.render. by destruct v. Qed.

Lemma render_keeps v : Dict.is_date v = false → render v = v.
Proof. unfold Dict.render. by intros ->. Qed.

Lemma serialize_lookup_oid (doc : gmap string Dict.value) :
  serialize doc !! "_id" = None.
Proof.
  unfold Dict._serialize. case_bool_decide as Hemp.
  { subst doc. apply lookup_empty. }
  rewrite lookup_fmap. destruct (doc !! "_id") as [oid|] eqn:Hoid.
  - rewrite lookup_insert_ne by done. by rewrite lookup_delete_eq.
  - by rewrite Hoid.
Qed.

Lemma serialize_lookup_field (doc : gmap string Dict.value) k :
  k ≠ "_id" → k ≠ "id" ∨ doc !! "_id" = None →
  serialize doc !! k = render <$> doc !! k.
Proof.
  intros Hk Hid. unfold Dict._serialize. case_bool_decide as Hemp.
  { subst doc. by rewrite lookup_empty. }
  rewrite lookup_fmap. destruct (doc !! "_id") as [oid|] eqn:Hoid; [|done].
  destruct Hid as [Hid|Hid]; [|done].
  rewrite lookup_insert_ne by done. by rewrite lookup_delete_ne.
Qed.

Lemma serialize_lookup_not_date (doc : gmap string Dict.value) k v :
  serialize doc !! k = Some v → Dict.is_date v = false.
Proof.
  unfold Dict._serialize. case_bool_decide as Hemp.
  { subst doc. by rewrite lookup_empty. }
  rewrite lookup_fmap. intros Hv.
  destruct (_ !! k) as [u|]; simpl in Hv; [|done].
  injection Hv as <-. apply render_not_date.
Qed.

(** X1. The identifier: the result never has an [_id] field; when the
    document has one, the result's [id] is its string form, whatever [id] the
    document had before; without one, an [id] field is kept. *)
Theorem serialize_renames_oid (doc : gmap string Dict.value) :
  serialize doc !! "_id" = None
  ∧ (∀ oid, doc !! "_id" = Some oid →
       serialize doc !! "id" = Some (Dict.VStr (str oid)))
  ∧ (doc !! "_id" = None → serialize doc !! "id" = render <$> doc !! "id").
Proof.
  split; [apply serialize_lookup_oid|]. split.
  - intros oid Hoid. unfold Dict._serialize. case_bool_decide as Hemp.
    { subst doc. by rewrite lookup_empty in Hoid. }
    by rewrite Hoid, lookup_fmap, lookup_insert_eq.
  - intros Hnone. apply serialize_lookup_field; [done|by right].
Qed.

(** X2. The other fields: each is kept under its name, a date or datetime
    value replaced by its ISO string and any other value unchanged, a list
    that holds dates included.  No date or datetime is left at the top
    level. *)
Theorem serialize_renders_dates (doc : gmap string Dict.value) :
  (∀ k, k ≠ "_id" → k ≠ "id" → serialize doc !! k = render <$> doc !! k)
  ∧ (∀ k v, serialize doc !! k = Some v → Dict.is_date v = false)
  ∧ (∀ k v, k ≠ "_id" → k ≠ "id" → doc !! k = Some v → Dict.is_date v = false →
            serialize doc !! k = Some v)
  ∧ (∀ k v, k ≠ "_id" → k ≠ "id" → doc !! k = Some v → Dict.is_date v = true →
            serialize doc !! k = Some (Dict.VStr (isoformat v)))
  ∧ (∀ k vs, k ≠ "_id" → k ≠ "id" → doc !! k = Some (Dict.VList vs) →
             serialize doc !! k = Some (Dict.VList vs)).
Proof.
  split; [by intros; apply serialize_lookup_field; auto|].
  split; [apply serialize_lookup_not_date|]. split; [|split].
  - intros k v Hk Hid Hv Hnd. rewrite serialize_lookup_field by auto.
    rewrite Hv. simpl. by rewrite render_keeps.
  - intros k v Hk Hid Hv Hd. rewrite serialize_lookup_field by auto.
    rewrite Hv. simpl. unfold Dict.render. by rewrite Hd.
  - intros k vs Hk Hid Hv. rewrite serialize_lookup_field by auto. by rewrite Hv.
Qed.

(** X3. Serializing twice is serializing once. *)
Theorem serialize_idempotent (doc : gmap string Dict.value) :
  serialize (serialize doc) = serialize doc.
Proof.
  pose proof (serialize_lookup_oid doc) as Hno.
  pose proof (serialize_lookup_not_date doc) as Hnd.
  set (once := serialize doc) in *.
  unfold Dict._serialize at 1. case_bool_decide as Hemp; [done|].
  rewrite Hno. apply map_eq. intros k. rewrite lookup_fmap.
  destruct (once !! k) as [v|] eqn:Hv; [|done]. simpl. f_equal.
  apply render_keeps. by apply (Hnd k).
Qed.

End SerializeFacts.

(** ** The status report *)



(** X4. The status report lists at most ten collections, the first ten the
    store names in their order, and none when the handle is missing or the
    listing raises. *)
Theorem test_database_collections getenv db :
  let r := Status.test_database getenv db in
  (length (Status.collections r) ≤ 10)%nat
  ∧ (∀ names, db = Some (inr names) →
       Status.collections r = take 10 names
       ∧ ((length names ≤ 10)%nat → Status.collections r = names))
  ∧ ((∀ names, db ≠ Some (inr names)) → Status.collections r = []).
Proof.
  simpl. split; [|split].
  - destruct db as [[e|names]|]; simpl; try lia. rewrite length_take. lia.
  - intros names ->. simpl. split; [done|]. intros Hlen. by apply take_ge.
  - intros Hno. destruct db as [[e|names]|]; simpl; try done. by destruct (Hno names).
Qed.

(** X5. The status fields agree with the state of the store: the connection
    is reported exactly when the handle is there, "Connected & Working"
    exactly when the listing succeeds, and the placeholder "Not Available" the
    report starts with is always overwritten. *)
Theorem test_database_status getenv db :
  let r := Status.test_database getenv db in
  Status.backend r = "✅ Running"
  ∧ (Status.connection_status r = "Connected" ↔ is_Some db)
  ∧ (Status.connection_status r = "Not Connected" ↔ db = None)
  ∧ (Status.database r = "✅ Connected & Working" ↔ ∃ names, db = Some (inr names))
  ∧ (Status.database r = "⚠️ Available but not initialized" ↔ db = None)
  ∧ Status.database r ≠ "❌ Not Available"
  ∧ Status.database r ≠ "✅ Available".
Proof.
  simpl. destruct db as [[e|names]|]; simpl; repeat split;
    try done; try (intros [? ?]; done); try (intros ?; by eexists);
    try (intros [? [=]]).
Qed.


(** ** The per-day and per-type tallies of [insights] *)





Lemma tally_by_day_lookup l acc d :
  (fold_left tally l acc).1 !! d =
  match dated d l with
  | [] => acc.1 !! d
  | ws => Some (default 0 (acc.1 !! d) + sum_of (minutes_logged <$> ws))%Qc
  end.
Proof.
  revert acc. induction l as [|w l IH]; intros acc; [done|].
  simpl. rewrite IH. unfold dated. rewrite filter_cons. simpl.
  destruct (decide (w_date w = d)) as [<-|Hne].
  - rewrite lookup_insert_eq, duration_of_minutes_logged.
    destruct (filter _ l) as [|w' ws];
      cbn [default from_option id fmap list_fmap sum_of]; f_equal;
      rewrite ?Qcplus_0_r, ?Qcplus_assoc; reflexivity.
  - by rewrite lookup_insert_ne.
Qed.




Lemma by_day_lookup wdocs d :
  (by_day_and_types wdocs).1 !! d =
  match dated d wdocs with
  | [] => None
  | ws => Some (sum_of (minutes_logged <$> ws))
  end.
Proof.
  unfold by_day_and_types. rewrite tally_by_day_lookup. cbn [fst].
  rewrite lookup_empty. destruct (dated d wdocs); [done|].
  cbn [default from_option id]. by rewrite Qcplus_0_l.
Qed.

Lemma by_day_is_Some wdocs d :
  is_Some ((by_day_and_types wdocs).1 !! d) ↔ worked_out_on wdocs d.
Proof.
  rewrite by_day_lookup. unfold worked_out_on, dated. split.
  - destruct (filter _ wdocs) as [|w ws] eqn:Hf; [by intros [? [=]]|]. intros _.
    assert (w ∈ filter (λ w, w_date w = d) wdocs) as Hw by (rewrite Hf; left).
    apply list_elem_of_filter in Hw as [??]. by exists w.
  - intros (w & Hw & Hd).
    assert (w ∈ filter (λ w, w_date w = d) wdocs) as Hin
      by (by apply list_elem_of_filter).
    destruct (filter _ wdocs); [by apply elem_of_nil in Hin|by eexists].
Qed.




(** ** The variety suggestion and the list of suggestions *)






(** X11. The suggestions come in a fixed order, each at most once: the list
    is a sublist of frequency, session length, variety. *)
Theorem suggestions_in_fixed_order c today user_email days :
  ∃ r, insights today user_email days (Some c) = (Ok r, Some c)
    ∧ sublist (Report.suggestions r)
        [increase_frequency; bump_session_length; balance_routine]
    ∧ NoDup (Report.suggestions r)
    ∧ (length (Report.suggestions r) ≤ 3)%nat.
Proof.
  destruct (insights_report c today user_email days)
    as (streak & sugg & wc & _ & Hg & _ & Hrun).
  eexists. split; [exact Hrun|]. simpl.
  assert (Hsub : sublist sugg [increase_frequency; bump_session_length; balance_routine]).
  { revert Hg. unfold suggestions.
    destruct (dominant_type _ _) as [e|b]; [discriminate|]. simpl. intros [= <-].
    destruct b; destruct (bool_decide (_ < _)); destruct (bool_decide (_ < _)%Qc);
      destruct (bool_decide (3 ≤ _)); simpl; repeat constructor. }
  split; [exact Hsub|]. split.
  - eapply sublist_NoDup; [|exact Hsub].
    destruct messages_distinct as (H12 & H13 & H23).
    repeat constructor; rewrite ?elem_of_cons, ?elem_of_nil; intuition congruence.
  - apply sublist_length in Hsub. simpl in Hsub. lia.
Qed.

(** X12. With no workout of the user in the window, the report is the empty
    one: no sessions, no minutes, average 0, streak 0, empty tallies, and the
    frequency suggestion alone. *)
Theorem insights_of_an_empty_window c today user_email days :
  window_workouts c user_email today days = [] →
  ∃ r, insights today user_email days (Some c) = (Ok r, Some c)
    ∧ Report.totals_ r
      = {| Report.sessions := 0; Report.minutes := 0%Qc;
           Report.avg_duration := 0%Qc; Report.streak_days := 0 |}
    ∧ Report.volume_by_day r = ∅
    ∧ Report.types r = ∅
    ∧ Report.suggestions r = [increase_frequency].
Proof.
  intros Hempty.
  destruct (insights_report c today user_email days)
    as (streak & sugg & wc & Hs & Hg & _ & Hrun).
  eexists. split; [exact Hrun|]. simpl.
  rewrite fetched_workouts_window, Hempty in *.
  assert (streak = 0) as -> by (vm_compute in Hs; by injection Hs).
  assert (sugg = [increase_frequency]) as ->.
  { revert Hg. unfold suggestions. simpl.
    assert (bool_decide (total_sessions [] < Z.max 3 (days / 4)) = true) as ->.
    { apply bool_decide_eq_true. unfold total_sessions. simpl. lia. }
    by intros [= <-]. }
  repeat split. f_equal. apply py_round1_0.
Qed.

Lemma insights_of_an_empty_window_witness :
  ∃ r, insights 738002 "bob@example.org" 30 (Some three_short_sessions)
       = (Ok r, Some three_short_sessions)
     ∧ Report.suggestions r = [increase_frequency].
Proof.
  destruct (insights_of_an_empty_window three_short_sessions 738002
              "bob@example.org" 30) as (r & Hrun & _ & _ & _ & Hs); [reflexivity|].
  by exists r.
Defined.

(** ** The streak against the tallies *)

Lemma streak_loop_le_upto budget S d acc n :
  streak_loop budget S d acc = Ok n → n - acc ≤ Z.of_nat (size (upto S d)).
Proof.
  revert d acc. induction budget as [|b IH]; intros d acc H; [discriminate|].
  simpl in H. case_bool_decide as Hd.
  - apply IH in H. pose proof (upto_pred_size S d Hd). lia.
  - injection H as <-. lia.
Qed.

Lemma size_days_with_le wdocs : (size (days_with wdocs) ≤ length wdocs)%nat.
Proof.
  unfold days_with. induction wdocs as [|w l IH]; simpl.
  - change (size (∅ : gset Z) ≤ 0)%nat. by rewrite size_empty.
  - change (size ({[w_date w]} ∪ list_to_set (map w_date l) : gset Z)
            ≤ S (length l))%nat.
    rewrite size_union_alt, size_singleton.
    pose proof (subseteq_size (list_to_set (map w_date l) ∖ {[w_date w]})
                  (list_to_set (map w_date l) : gset Z)) as Hsub.
    assert ((list_to_set (map w_date l) ∖ {[w_date w]} : gset Z)
              ⊆ list_to_set (map w_date l)) as Hincl.
    { intros x Hx. by apply elem_of_difference in Hx as [? _]. }
    specialize (Hsub Hincl). lia.
Qed.

Lemma dom_by_day wdocs : dom (by_day_and_types wdocs).1 = days_with wdocs.
Proof.
  apply set_eq. intros d.
  by rewrite elem_of_dom, by_day_is_Some, elem_of_days_with.
Qed.

(** X13. The streak is at most the number of days with an entry in
    [volume_by_day], which is at most the number of sessions. *)
Theorem streak_at_most_active_days c today user_email days :
  ∃ r, insights today user_email days (Some c) = (Ok r, Some c)
    ∧ 0 ≤ Report.streak_days (Report.totals_ r)
    ∧ Report.streak_days (Report.totals_ r) ≤ Z.of_nat (size (Report.volume_by_day r))
    ∧ Z.of_nat (size (Report.volume_by_day r)) ≤ Report.sessions (Report.totals_ r).
Proof.
  destruct (insights_report c today user_email days)
    as (streak & sugg & wc & Hs & _ & _ & Hrun).
  eexists. split; [exact Hrun|]. simpl.
  set (wdocs := fetched_workouts c user_email today days) in *.
  rewrite <-size_dom, dom_by_day.
  pose proof (size_days_with_le wdocs) as Hlen.
  pose proof (upto_size (days_with wdocs) today) as Hup.
  pose proof (current_streak_consecutive _ _ _ Hs) as (H0 & _).
  apply streak_loop_le_upto in Hs. unfold total_sessions. lia.
Qed.

(** ** Query parameters and request bodies *)

(** X14. The integer query parameters: an omitted one takes its default (30
    days, 50 workouts, 30 entries), one within its range (1..365, 1..500,
    1..365) is passed on, and any other is rejected with a validation error
    naming it, whatever the state of the store, which is left as it was. *)
Theorem query_parameters_checked :
  (∀ today user_email db,
     Route.get_insights today user_email None db = insights today user_email 30 db)
  ∧ (∀ today user_email d db, 1 ≤ d ≤ 365 →
       Route.get_insights today user_email (Some d) db = insights today user_email d db)
  ∧ (∀ today user_email d db, ¬ 1 ≤ d ≤ 365 →
       Route.get_insights today user_email (Some d) db
       = (Raise (RequestValidationError ["days"]), db))
  ∧ (∀ user_email start end_ db,
       Route.get_workouts user_email start end_ None db
       = list_workouts user_email start end_ (Some 50) db)
  ∧ (∀ user_email start end_ n db, 1 ≤ n ≤ 500 →
       Route.get_workouts user_email start end_ (Some n) db
       = list_workouts user_email start end_ (Some n) db)
  ∧ (∀ user_email start end_ n db, ¬ 1 ≤ n ≤ 500 →
       Route.get_workouts user_email start end_ (Some n) db
       = (Raise (RequestValidationError ["limit"]), db))
  ∧ (∀ user_email db,
       Route.get_bodycomp user_email None db = list_bodycomp user_email 30 db)
  ∧ (∀ user_email n db, 1 ≤ n ≤ 365 →
       Route.get_bodycomp user_email (Some n) db = list_bodycomp user_email n db)
  ∧ (∀ user_email n db, ¬ 1 ≤ n ≤ 365 →
       Route.get_bodycomp user_email (Some n) db
       = (Raise (RequestValidationError ["limit"]), db)).
Proof.
  repeat split; intros;
    unfold Route.get_insights, Route.get_workouts, Route.get_bodycomp,
      bind, lift, Query;
    try done;
    (rewrite bool_decide_eq_true_2 by done) || (rewrite bool_decide_eq_false_2 by done);
    done.
Qed.

Lemma Field_ok loc c x : Field loc [c] x = [] ↔ c x = true.
Proof. unfold Field. simpl. rewrite andb_true_r. by destruct (c x). Qed.

Lemma OptionalField_ok loc c x :
  OptionalField loc [c] x = [] ↔ ∀ v, x = Some v → c v = true.
Proof.
  destruct x as [v|]; simpl.
  - rewrite Field_ok. split; [by intros ? ? [= <-]|auto].
  - split; [by intros _ ? [=]|done].
Qed.

Lemma OptionalField_ok2 loc c1 c2 x :
  OptionalField loc [c1; c2] x = [] ↔ ∀ v, x = Some v → c1 v = true ∧ c2 v = true.
Proof.
  destruct x as [v|]; simpl.
  - unfold Field. simpl. rewrite andb_true_r. split.
    + intros Hnil v0 [= <-]. by destruct (c1 v), (c2 v).
    + intros Hall. by destruct (Hall v eq_refl) as [-> ->].
  - split; [by intros _ ? [=]|done].
Qed.

Lemma validated_ok {A} errors (a : A) r : validated errors a = Ok r ↔ errors = [] ∧ r = a.
Proof.
  destruct errors; simpl; unfold Ok, Raise; split; try (intros [? ?]; congruence).
  - intros [= <-]. done.
  - discriminate.
Qed.

Lemma validated_rejects {A} errors (a : A) :
  errors ≠ [] → validated errors a = Raise (RequestValidationError errors).
Proof. by destruct errors. Qed.

Lemma gt_spec b x : gt b x = true ↔ (b < x)%Qc.
Proof. unfold gt. apply bool_decide_eq_true. Qed.
Lemma ge_spec b x : ge b x = true ↔ (b ≤ x)%Qc.
Proof. unfold ge. apply bool_decide_eq_true. Qed.
Lemma le_spec b x : le b x = true ↔ (x ≤ b)%Qc.
Proof. unfold le. apply bool_decide_eq_true. Qed.

Lemma workout_errors_nil w : WorkoutIn.errors w = [] ↔ workout_in_bounds w.
Proof.
  unfold WorkoutIn.errors, workout_in_bounds.
  rewrite app_nil, Field_ok, OptionalField_ok, gt_spec.
  split; (intros [Hd Hc]; split; [done|]; intros c Hcal; apply ge_spec; by apply Hc).
Qed.

Lemma bodycomp_errors_nil m : BodyCompIn.errors m = [] ↔ bodycomp_in_bounds m.
Proof.
  unfold BodyCompIn.errors, bodycomp_in_bounds.
  rewrite !app_nil, !OptionalField_ok, OptionalField_ok2.
  split; intros (Hw & Hf & Hwa & Hh & Hc);
    (split; [|split; [|split; [|split]]]);
    intros x Hx; try (apply gt_spec; by auto);
    destruct (Hf x Hx) as [H1 H2]; split; (apply ge_spec || apply le_spec); done.
Qed.

Lemma profile_errors_nil p : ProfileIn.errors p = [] ↔ profile_in_bounds p.
Proof.
  unfold ProfileIn.errors, profile_in_bounds. rewrite OptionalField_ok.
  split; intros Hh h Hp; apply gt_spec; by apply Hh.
Qed.

(** X15. A workout body is accepted exactly when its duration is positive
    and its calories, if given, are not negative.  An accepted body goes to
    the handler as it is; a rejected one raises a validation error that
    names the offending fields and leaves the store untouched, whatever its
    state. *)
Theorem workout_body_checked body db :
  (WorkoutIn.validate body = Ok body ↔ workout_in_bounds body)
  ∧ (workout_in_bounds body → Route.post_workouts body db = add_workout body db)
  ∧ (¬ workout_in_bounds body →
     ∃ locs, Route.post_workouts body db = (Raise (RequestValidationError locs), db)
       ∧ locs ≠ []
       ∧ ("duration_min" ∈ locs ↔ ¬ (0 < WorkoutIn.duration_min body)%Qc)).
Proof.
  unfold WorkoutIn.validate, Route.post_workouts, bind, lift, WorkoutIn.validate.
  split; [|split].
  - rewrite validated_ok, workout_errors_nil. tauto.
  - intros Hb. apply workout_errors_nil in Hb. by rewrite Hb.
  - intros Hb. rewrite <-workout_errors_nil in Hb.
    exists (WorkoutIn.errors body). rewrite validated_rejects by done.
    split; [done|]. split; [done|].
    unfold WorkoutIn.errors, Field, OptionalField, Field. simpl.
    rewrite andb_true_r. destruct (gt 0 (WorkoutIn.duration_min body)) eqn:Hg.
    + apply gt_spec in Hg. simpl.
      destruct (WorkoutIn.calories body) as [c|]; simpl;
        [destruct (ge 0 c && true)|]; rewrite ?elem_of_cons, ?elem_of_nil;
        split; try tauto; intros [[=]|[]].
    + simpl. split; [|intros; left]. intros _ Hlt. apply gt_spec in Hlt. congruence.
Qed.

(** X16. A body-composition body is accepted exactly when each measure that
    is given is in its bounds: weight and the three girths positive, body fat
    within 0..100. *)
Theorem bodycomp_body_checked body db :
  (BodyCompIn.validate body = Ok body ↔ bodycomp_in_bounds body)
  ∧ (bodycomp_in_bounds body → Route.post_bodycomp body db = add_bodycomp body db)
  ∧ (¬ bodycomp_in_bounds body →
     ∃ locs, Route.post_bodycomp body db = (Raise (RequestValidationError locs), db)
       ∧ locs ≠ []).
Proof.
  unfold BodyCompIn.validate, Route.post_bodycomp, bind, lift, BodyCompIn.validate.
  split; [|split].
  - rewrite validated_ok, bodycomp_errors_nil. tauto.
  - intros Hb. apply bodycomp_errors_nil in Hb. by rewrite Hb.
  - intros Hb. rewrite <-bodycomp_errors_nil in Hb.
    exists (BodyCompIn.errors body). by rewrite validated_rejects.
Qed.

(** X17. A profile body is accepted exactly when its height, if given, is
    positive. *)
Theorem profile_body_checked body db :
  (ProfileIn.validate body = Ok body ↔ profile_in_bounds body)
  ∧ (profile_in_bounds body → Route.post_profile body db = create_profile body db)
  ∧ (¬ profile_in_bounds body →
     Route.post_profile body db = (Raise (RequestValidationError ["height_cm"]), db)).
Proof.
  unfold ProfileIn.validate, Route.post_profile, bind, lift, ProfileIn.validate.
  split; [|split].
  - rewrite validated_ok, profile_errors_nil. tauto.
  - intros Hb. apply profile_errors_nil in Hb. by rewrite Hb.
  - intros Hb. rewrite <-profile_errors_nil in Hb. revert Hb.
    unfold ProfileIn.errors, OptionalField, Field.
    destruct (ProfileIn.height_cm body) as [h|]; [|done]. simpl.
    by destruct (gt 0 h).
Qed.

(** ** What the list endpoints return *)

Lemma filter_bool_Prop {A} (f : A → bool) (P : A → Prop) `{∀ x, Decision (P x)}
    (l : list A) :
  (∀ x, f x = true ↔ P x) → List.filter f l = filter P l.
Proof.
  intros Hf. induction l as [|a l IH]; [done|].
  rewrite filter_cons. simpl. rewrite IH.
  destruct (decide (P a)) as [Hp|Hp].
  - apply Hf in Hp. by rewrite Hp.
  - destruct (f a) eqn:Hfa; [|done]. apply Hf in Hfa. done.
Qed.


Section Stability.
Context {A : Type} (key : A → Z * Z).



End Stability.

Lemma get_workouts_matching c user_email start end_ raw limit :
  Query "limit" 50 1 500 raw = Ok limit →
  Route.get_workouts user_email start end_ raw (Some c) =
    (Ok (py_sort workout_key true
           (take (Z.to_nat limit) (matching_workouts c user_email start end_))),
     Some c).
Proof.
  intros Hq. rewrite (get_workouts_run _ _ _ _ _ _ Hq). do 4 f_equal.
  apply filter_bool_Prop. intros w. apply workout_matches_listed.
Qed.

Lemma get_bodycomp_matching c user_email raw limit :
  Query "limit" 30 1 365 raw = Ok limit →
  Route.get_bodycomp user_email raw (Some c) =
    (Ok (py_sort bodycomp_key true
           (take (Z.to_nat limit) (user_bodycomp c user_email))), Some c).
Proof.
  intros Hq. rewrite (get_bodycomp_run _ _ _ _ Hq). do 4 f_equal.
  apply filter_bool_Prop. intros b. unfold bodycomp_matches.
  apply bool_decide_eq_true.
Qed.

(** X18. A workout listing returns a rearrangement of the first [limit]
    workouts, in the order of the store, that belong to the user and are
    dated within the bounds given: never more than [limit], nothing that
    fails the filter, and every match when there are at most [limit]. *)
Theorem list_workouts_contents c user_email start end_ raw limit :
  Query "limit" 50 1 500 raw = Ok limit →
  ∃ docs, Route.get_workouts user_email start end_ raw (Some c) = (Ok docs, Some c)
    ∧ let found := matching_workouts c user_email start end_ in
      docs ≡ₚ take (Z.to_nat limit) found
      ∧ (length docs ≤ Z.to_nat limit)%nat
      ∧ (∀ w, w ∈ docs → w ∈ workout c ∧ listed user_email start end_ w)
      ∧ ((length found ≤ Z.to_nat limit)%nat → docs ≡ₚ found).
Proof.
  intros Hq. eexists. split; [by apply get_workouts_matching|]. cbv zeta.
  set (found := matching_workouts c user_email start end_).
  pose proof (py_sort_perm workout_key true (take (Z.to_nat limit) found)) as Hperm.
  split; [exact Hperm|]. split; [|split].
  - rewrite (Permutation_length Hperm), length_take. lia.
  - intros w Hw. rewrite Hperm in Hw. apply elem_of_take in Hw as (i & Hw & _).
    apply list_elem_of_lookup_2 in Hw. by apply list_elem_of_filter in Hw as [??].
  - intros Hlen. by rewrite Hperm, take_ge.
Qed.

Lemma list_workouts_contents_witness :
  Query "limit" 50 1 500 (Some 2) = Ok 2
  ∧ ∃ docs, Route.get_workouts "ann@example.org" None (Some 738001) (Some 2)
              (Some three_short_sessions) = (Ok docs, Some three_short_sessions)
      ∧ (length docs ≤ 2)%nat
      ∧ ∀ w, w ∈ docs → w ∈ workout three_short_sessions
                        ∧ listed "ann@example.org" None (Some 738001) w.
Proof.
  split; [reflexivity|].
  destruct (list_workouts_contents three_short_sessions "ann@example.org" None
              (Some 738001) (Some 2) 2) as (docs & Hrun & _ & Hlen & Hall & _);
    [reflexivity|].
  exists docs. split; [exact Hrun|]. split; [exact Hlen|exact Hall].
Defined.

(** X19. A body-composition listing returns a rearrangement of the first
    [limit] entries of the user in the order of the store, and all of them
    when there are at most [limit]. *)
Theorem list_bodycomp_contents c user_email raw limit :
  Query "limit" 30 1 365 raw = Ok limit →
  ∃ docs, Route.get_bodycomp user_email raw (Some c) = (Ok docs, Some c)
    ∧ let found := user_bodycomp c user_email in
      docs ≡ₚ take (Z.to_nat limit) found
      ∧ (length docs ≤ Z.to_nat limit)%nat
      ∧ (∀ b, b ∈ docs → b ∈ bodycomposition c ∧ b_user_email b = user_email)
      ∧ ((length found ≤ Z.to_nat limit)%nat → docs ≡ₚ found).
Proof.
  intros Hq. eexists. split; [by apply get_bodycomp_matching|]. cbv zeta.
  set (found := user_bodycomp c user_email).
  pose proof (py_sort_perm bodycomp_key true (take (Z.to_nat limit) found)) as Hperm.
  split; [exact Hperm|]. split; [|split].
  - rewrite (Permutation_length Hperm), length_take. lia.
  - intros b Hb. rewrite Hperm in Hb. apply elem_of_take in Hb as (i & Hb & _).
    apply list_elem_of_lookup_2 in Hb. by apply list_elem_of_filter in Hb as [??].
  - intros Hlen. by rewrite Hperm, take_ge.
Qed.

Lemma list_bodycomp_contents_witness :
  Query "limit" 30 1 365 None = Ok 30
  ∧ ∃ docs, Route.get_bodycomp "ann@example.org" None (Some three_checkpoints)
            = (Ok docs, Some three_checkpoints)
      ∧ docs ≡ₚ bodycomposition three_checkpoints.
Proof.
  split; [reflexivity|].
  destruct (list_bodycomp_contents three_checkpoints "ann@example.org" None 30)
    as (docs & Hrun & _ & _ & _ & Hall); [reflexivity|].
  exists docs. split; [exact Hrun|]. apply Hall. simpl. lia.
Defined.



(** X21. A profile lookup returns the first profile of the store with the
    email, so a later profile with the same email is never returned; it
    fails with a 404 exactly when no profile has the email. *)
Theorem get_profile_first_match c email :
  ((∀ q, q ∈ userprofile c → p_email q ≠ email)
   ∧ get_profile email (Some c)
     = (Raise (HTTPException 404 "Profile not found"), Some c))
  ∨ (∃ before p after,
       userprofile c = (before ++ p :: after)%list
       ∧ p_email p = email
       ∧ (∀ q, q ∈ before → p_email q ≠ email)
       ∧ get_profile email (Some c) = (Ok p, Some c)).
Proof.
  unfold get_profile, bind, get_documents, ret, raise, _serialize. simpl.
  induction (userprofile c) as [|q l IH].
  - left. split; [|done]. intros q Hq. by apply elem_of_nil in Hq.
  - simpl. case_bool_decide as Hq.
    + right. exists [], q, l. split; [done|]. split; [done|].
      split; [intros ? Hin; by apply elem_of_nil in Hin|]. done.
    + destruct IH as [[Hnone Hrun]|(before & p & after & -> & Hp & Hbefore & Hrun)].
      * left. split; [|done].
        intros q' Hq'. apply elem_of_cons in Hq' as [->|Hq']; [done|by apply Hnone].
      * right. exists (q :: before), p, after. split; [done|]. split; [done|].
        split; [|done].
        intros q' Hq'. apply elem_of_cons in Hq' as [->|Hq']; [done|by apply Hbefore].
Qed.

(** ** Writing, then reading *)

Lemma post_workouts_run c body :
  workout_in_bounds body →
  Route.post_workouts body (Some c) =
    (Ok (next_id c),
     Some {| userprofile := userprofile c;
             workout := workout c ++ [workout_doc body (next_id c) (clock c)];
             bodycomposition := bodycomposition c;
             clock := clock c + 1; next_id := N.succ (next_id c) |}).
Proof.
  intros Hb. apply workout_errors_nil in Hb.
  unfold Route.post_workouts, bind, lift, WorkoutIn.validate. by rewrite Hb.
Qed.

Lemma post_profile_run c body :
  profile_in_bounds body →
  Route.post_profile body (Some c) =
    (Ok (next_id c),
     Some {| userprofile := userprofile c ++ [profile_doc body (next_id c) (clock c)];
             workout := workout c;
             bodycomposition := bodycomposition c;
             clock := clock c + 1; next_id := N.succ (next_id c) |}).
Proof.
  intros Hb. apply profile_errors_nil in Hb.
  unfold Route.post_profile, bind, lift, ProfileIn.validate. by rewrite Hb.
Qed.

Lemma get_profile_run c email :
  get_profile email (Some c) =
    (match List.filter (λ p, bool_decide (p_email p = email)) (userprofile c) with
     | [] => Raise (HTTPException 404 "Profile not found")
     | p :: _ => Ok p
     end, Some c).
Proof.
  unfold get_profile, bind, get_documents, ret, raise, _serialize. simpl.
  by destruct (List.filter _ (userprofile c)).
Qed.

(** X22. A workout that is posted and accepted is appended to the workouts
    of the store, the other collections being left as they were, and a
    listing for its user whose bounds contain its date returns it together
    with the earlier matches, provided the earlier matches are fewer than
    the limit. *)
Theorem posted_workout_is_listed c body start end_ raw limit :
  workout_in_bounds body →
  Query "limit" 50 1 500 raw = Ok limit →
  (∀ s, start = Some s → s ≤ WorkoutIn.date body) →
  (∀ e, end_ = Some e → WorkoutIn.date body ≤ e) →
  (length (matching_workouts c (WorkoutIn.user_email body) start end_)
   < Z.to_nat limit)%nat →
  ∃ oid c',
    Route.post_workouts body (Some c) = (Ok oid, Some c')
    ∧ workout c' = (workout c ++ [workout_doc body oid (clock c)])%list
    ∧ userprofile c' = userprofile c
    ∧ bodycomposition c' = bodycomposition c
    ∧ ∃ docs,
        Route.get_workouts (WorkoutIn.user_email body) start end_ raw (Some c')
        = (Ok docs, Some c')
        ∧ workout_doc body oid (clock c) ∈ docs
        ∧ ∀ w, w ∈ matching_workouts c (WorkoutIn.user_email body) start end_ →
               w ∈ docs.
Proof.
  intros Hb Hq Hs He Hlen.
  eexists _, _. split; [by apply post_workouts_run|]. simpl.
  split; [done|]. split; [done|]. split; [done|].
  eexists. split; [by apply get_workouts_matching|].
  set (doc := workout_doc body (next_id c) (clock c)).
  assert (Hfound : matching_workouts
            {| userprofile := userprofile c; workout := workout c ++ [doc];
               bodycomposition := bodycomposition c;
               clock := clock c + 1; next_id := N.succ (next_id c) |}
            (WorkoutIn.user_email body) start end_
          = (matching_workouts c (WorkoutIn.user_email body) start end_ ++ [doc])%list).
  { unfold matching_workouts. simpl. rewrite filter_app. f_equal.
    rewrite filter_cons_True; [done|]. by split. }
  rewrite Hfound, take_ge by (rewrite length_app; simpl; lia).
  split.
  - rewrite py_sort_perm. apply elem_of_app. right. left.
  - intros w Hw. rewrite py_sort_perm. apply elem_of_app. by left.
Qed.

Lemma posted_workout_is_listed_witness :
  ∃ oid c',
    Route.post_workouts evening_run (Some three_short_sessions) = (Ok oid, Some c')
    ∧ ∃ docs,
        Route.get_workouts "ann@example.org" (Some 738001) None None (Some c')
        = (Ok docs, Some c')
        ∧ workout_doc evening_run oid 4 ∈ docs.
Proof.
  destruct (posted_workout_is_listed three_short_sessions evening_run
              (Some 738001) None None 50)
    as (oid & c' & Hpost & _ & _ & _ & docs & Hget & Hin & _).
  - split; [by apply (bool_decide_unpack _)|].
    intros c [= <-]. by apply (bool_decide_unpack _).
  - reflexivity.
  - intros s [= <-]. simpl. lia.
  - intros e [=].
  - vm_compute. lia.
  - exists oid, c'. split; [exact Hpost|]. exists docs. split; [exact Hget|exact Hin].
Defined.

(** X23. A profile that is posted and accepted is appended to the profiles
    of the store.  A lookup by its email then returns it when no earlier
    profile has that email, and still returns the earlier profile otherwise;
    lookups by another email are not affected. *)
Theorem posted_profile_is_found c body :
  profile_in_bounds body →
  ∃ oid c',
    Route.post_profile body (Some c) = (Ok oid, Some c')
    ∧ userprofile c' = (userprofile c ++ [profile_doc body oid (clock c)])%list
    ∧ workout c' = workout c
    ∧ bodycomposition c' = bodycomposition c
    ∧ ((∀ q, q ∈ userprofile c → p_email q ≠ ProfileIn.email body) →
       get_profile (ProfileIn.email body) (Some c')
       = (Ok (profile_doc body oid (clock c)), Some c'))
    ∧ (∀ p, get_profile (ProfileIn.email body) (Some c) = (Ok p, Some c) →
            get_profile (ProfileIn.email body) (Some c') = (Ok p, Some c'))
    ∧ (∀ other, other ≠ ProfileIn.email body →
         (get_profile other (Some c')).1 = (get_profile other (Some c)).1).
Proof.
  intros Hb. eexists _, _. split; [by apply post_profile_run|]. simpl.
  split; [done|]. split; [done|]. split; [done|].
  set (doc := profile_doc body (next_id c) (clock c)).
  split; [|split].
  - intros Hnone. rewrite get_profile_run. simpl. rewrite List.filter_app.
    rewrite filter_nothing.
    + simpl. by rewrite bool_decide_eq_true_2.
    + intros q Hq. rewrite bool_decide_eq_true. by apply Hnone.
  - intros p. rewrite !get_profile_run. simpl. rewrite List.filter_app.
    destruct (List.filter _ (userprofile c)) as [|q l]; [discriminate|].
    simpl. by intros [= ->].
  - intros other Hother. rewrite !get_profile_run. simpl. rewrite List.filter_app.
    simpl. rewrite bool_decide_eq_false_2 by (simpl; congruence).
    by rewrite app_nil_r.
Qed.

Lemma posted_profile_is_found_witness :
  ∃ oid c',
    Route.post_profile ann_profile (Some three_short_sessions) = (Ok oid, Some c')
    ∧ get_profile "ann@example.org" (Some c')
      = (Ok (profile_doc ann_profile oid 4), Some c').
Proof.
  destruct (posted_profile_is_found three_short_sessions ann_profile)
    as (oid & c' & Hpost & _ & _ & _ & Hnew & _).
  - intros h [= <-]. by apply (bool_decide_unpack _).
  - exists oid, c'. split; [exact Hpost|]. apply Hnew.
    intros q Hq. by apply elem_of_nil in Hq.
Defined.





(** ** A new measurement and the weight trend *)




(** ** Type labels *)






(** ** The collection schemas *)

